(** * Model of the slicing and geometry-extraction pipeline of
    [src/vtk_dash_app.py] ([VTKXDMFDashApp]) and of the synthetic volume
    decimation of [src/create_example_xdmf.py].

    Floats are modelled as rationals [Q]; integers as [Z] or [nat].
    VTK algorithms that are library code (cutter, surface filters, elevation
    filter, lookup table, XDMF reader) are parameters of a record of
    operations [VtkOps]; everything the repository itself computes is
    written out. *)

From Stdlib Require Import String.
From Stdlib Require Import List Bool Arith ZArith QArith Lia.
Import ListNotations.
Open Scope Z_scope.

(** ** Data model *)

Definition Point : Type := (Q * Q * Q)%type.

(** A [vtkPolyData]: points, polygon cells ([GetPolys]), the active
    point scalars ([GetPointData().GetScalars()]) and whether it has a
    points object at all ([GetPoints()] is not [None]; a polydata without
    one has no point). *)
Record PolyData := mkPolyData {
  pd_points : list Point;
  pd_polys : list (list nat);
  pd_scalars : option (list Q);
  pd_points_obj : bool
}.

(** A non-polygonal VTK dataset (unstructured grid, image data, structured
    grid): its points, cells and active point scalars. *)
Record Grid := mkGrid {
  g_points : list Point;
  g_cells : list (list nat);
  g_scalars : option (list Q)
}.

(** The VTK class of a dataset, as probed by [IsA]; [DComposite] is the
    [vtkMultiBlockDataSet] a reader returns for a collection of grids, with
    the points of all its blocks (it has no [GetPointData] and no
    [GetPoints]). *)
Inductive Dataset :=
| DPoly (p : PolyData)
| DUGrid (g : Grid)
| DImage (g : Grid)
| DStructured (g : Grid)
| DComposite (g : Grid).

Definition ds_points (d : Dataset) : list Point :=
  match d with
  | DPoly p => pd_points p
  | DUGrid g | DImage g | DStructured g | DComposite g => g_points g
  end.

(** [GetNumberOfPoints()]. *)
Definition GetNumberOfPoints (d : Dataset) : nat := length (ds_points d).

(** A Python object: its identity [id(...)] and its content. *)
Record Obj := mkObj { oid : nat; odata : Dataset }.

(** [vtkPlane]: normal and origin. *)
Record Plane := mkPlane { normal : Point; origin : Point }.

(** ** Geometry packing (second half of [extract_geometry_data]) *)

(** The record returned to the renderer. *)
Record Geometry := mkGeometry {
  vertices : list Q;
  faces : list nat;
  colors : list Q;
  vertex_count : nat;
  face_count : nat;
  opacity : Q;
  wireframe : bool
}.

Definition point_coords (p : Point) : list Q :=
  let '(x, y, z) := p in [x; y; z].

(** [for i in range(1, n - 1): faces.extend([id0, id_i, id_(i+1)])],
    guarded by [GetNumberOfIds() >= 3]. *)
Definition fan (ids : list nat) : list nat :=
  if (3 <=? length ids)%nat then
    flat_map (fun i => [nth 0 ids 0%nat; nth i ids 0%nat; nth (S i) ids 0%nat])
             (seq 1 (length ids - 2))
  else [].

Definition extract_faces (polys : list (list nat)) : list nat :=
  flat_map fan polys.

(** [if len(faces) == 0: if num_points > 0: faces = [0, 1, 2]]. *)
Definition fallback_faces (num_points : nat) (faces : list nat) : list nat :=
  match faces with
  | [] => if (0 <? num_points)%nat then [0; 1; 2]%nat else []
  | _ => faces
  end.

Definition color_coords (c : Q * Q * Q) : list Q :=
  let '(r, g, b) := c in [r; g; b].

(** Colours: the lookup table applied to each scalar, or green
    [[0.0, 1.0, 0.0] * num_points]. *)
Definition extract_colors (lut : Q -> Q * Q * Q) (scalars : option (list Q))
    (num_points : nat) : list Q :=
  match scalars with
  | Some sc => flat_map (fun i => color_coords (lut (nth i sc 0%Q))) (seq 0 num_points)
  | None => concat (repeat [0%Q; 1%Q; 0%Q] num_points)
  end.

(** [n / d] rounded to the nearest integer, ties to even ([n >= 0],
    [d > 0]). *)
Definition round_half_even (n d : Z) : Z :=
  let q := n / d in
  let r := n mod d in
  if d <? 2 * r then q + 1
  else if 2 * r =? d then (if Z.even q then q else q + 1)
  else q.

(** The conversion of a coordinate to [np.float32]: rounding to a 24-bit
    significand, ties to even, with subnormals below [2^-126] (exponent
    floor [-149]); values in the finite range of [float32]. *)
Definition float32_round (x : Q) : Q :=
  let n := Qnum x in
  let d := Zpos (Qden x) in
  if n =? 0 then 0%Q
  else
    let a := Z.abs n in
    let scaled (e : Z) := if 0 <=? e then (a, d * 2 ^ e) else (a * 2 ^ (- e), d) in
    let e1 := Z.log2 a - Z.log2 d - 24 in
    let e2 := if 2 ^ 24 <=? (let '(u, v) := scaled e1 in u / v) then e1 + 1 else e1 in
    let e := Z.max e2 (-149) in
    let m := let '(u, v) := scaled e in round_half_even u v in
    let r := if 0 <=? e then inject_Z (m * 2 ^ e) else Qred (m # Z.to_pos (2 ^ (- e))) in
    if n <? 0 then Qopp r else r.

(** Packing of the final polydata; [None] is the empty dict [{}] returned
    when [num_points == 0]. The coordinates go through a [float32] array
    ([np.array(..., dtype=np.float32).flatten().tolist()]). *)
Definition pack (lut : Q -> Q * Q * Q) (op : Q) (wf : bool) (pd : PolyData)
    : option Geometry :=
  let num_points := length (pd_points pd) in
  if (num_points =? 0)%nat then None
  else
    let verts := map float32_round (flat_map point_coords (pd_points pd)) in
    let fs := fallback_faces num_points (extract_faces (pd_polys pd)) in
    let cs := extract_colors lut (pd_scalars pd) num_points in
    Some (mkGeometry verts fs cs num_points (length fs / 3) op wf).

(** ** Bounds, VTK operations and session state *)

(** [GetBounds()]: [(xmin, xmax, ymin, ymax, zmin, zmax)]; VTK's
    uninitialised bounds [(1, -1, 1, -1, 1, -1)] for an empty dataset. *)
Record Bounds := mkBounds { xmin : Q; xmax : Q; ymin : Q; ymax : Q; zmin : Q; zmax : Q }.

Definition qmin (a b : Q) : Q := if Qle_bool a b then a else b.
Definition qmax (a b : Q) : Q := if Qle_bool a b then b else a.

Definition grow (b : Bounds) (p : Point) : Bounds :=
  let '(x, y, z) := p in
  mkBounds (qmin (xmin b) x) (qmax (xmax b) x) (qmin (ymin b) y)
           (qmax (ymax b) y) (qmin (zmin b) z) (qmax (zmax b) z).

Definition GetBounds (d : Dataset) : Bounds :=
  match ds_points d with
  | [] => mkBounds 1 (-1) 1 (-1) 1 (-1)
  | ((x, y, z) as p) :: rest => fold_left grow rest (mkBounds x x y y z z)
  end.

(** The VTK library algorithms the application calls, and the two hashes
    of the interpreter that depend on the process: [hash] of a [str]
    (randomised per process; like every CPython hash never [-1]) and
    [hash(None)]. *)
Record VtkOps := mkVtkOps {
  cut : Dataset -> Plane -> PolyData;             (* vtkCutter *)
  surface : Dataset -> PolyData;                  (* vtkDataSetSurfaceFilter *)
  image_geometry : Dataset -> PolyData;           (* vtkImageDataGeometryFilter *)
  elevation : Dataset -> Dataset;                 (* vtkElevationFilter *)
  lut_color : Q -> Q * Q * Q;                     (* vtkLookupTable.GetColor *)
  read_xdmf : string -> option Dataset;           (* vtkXdmfReader; None: raises *)
  image_to_pointset : Dataset -> option Dataset;  (* vtkImageDataToPointSet; None: raises *)
  point_array_names : Dataset -> list string;
  cell_array_names : Dataset -> list string;
  set_active_scalars : Dataset -> string -> Dataset; (* apply_array_coloring *)
  str_hash : string -> Z;
  none_hash : Z
}.

(** Request parameters held as instance fields. *)
Record Params := mkParams {
  current_opacity : Q;
  wireframe_mode : bool;
  slicing_enabled : bool;
  slice_position : Q;
  slice_normal : Point;
  multiple_slices : bool;
  num_slices : Z;
  slice_spacing : Q
}.

(** The argument tuple of [hash(...)] in [extract_geometry_data]. *)
Record Key := mkKey {
  k_id : nat; k_opacity : Q; k_wireframe : bool; k_array : option string;
  k_enabled : bool; k_position : Q; k_normal : Point; k_multi : bool; k_num : Z
}.

(** ** CPython's [hash] on the values of the key (64-bit build) *)

(** [_PyHASH_MODULUS = 2**61 - 1]. *)
Definition py_modulus : Z := 2 ^ 61 - 1.

(** [pow(b, e, m)] by squaring. *)
Fixpoint pow_mod (b : Z) (e : positive) (m : Z) : Z :=
  match e with
  | xH => b mod m
  | xO e' => let r := pow_mod b e' m in (r * r) mod m
  | xI e' => let r := pow_mod b e' m in (r * r * b) mod m
  end.

(** The numeric hash shared by [int], [float] and [Fraction] (equal values
    hash equally): [|p| * inverse(q)] modulo [2**61 - 1] with the sign of
    [p], [sys.hash_info.inf] when [q] has no inverse, and [-1] mapped to
    [-2]. *)
Definition py_hash_Q (x : Q) : Z :=
  let p := Qnum x in
  let q := Zpos (Qden x) in
  let dinv := pow_mod q (Z.to_pos (py_modulus - 2)) py_modulus in
  let h := if dinv =? 0 then 314159 else ((Z.abs p mod py_modulus) * dinv) mod py_modulus in
  let r := if p <? 0 then - h else h in
  if r =? -1 then -2 else r.

Definition py_hash_Z (n : Z) : Z := py_hash_Q (inject_Z n).

(** [hash(True) == 1], [hash(False) == 0]. *)
Definition py_hash_bool (b : bool) : Z := if b then 1 else 0.

Definition xxprime_1 : Z := 11400714785074694791.
Definition xxprime_2 : Z := 14029467366897019727.
Definition xxprime_5 : Z := 2870177450012600261.

Definition word64 : Z := 2 ^ 64.

(** [_PyHASH_XXROTATE]: rotation left by 31 bits of a 64-bit word. *)
Definition rotl31 (x : Z) : Z :=
  Z.lor (Z.land (Z.shiftl x 31) (word64 - 1)) (Z.shiftr x 33).

(** One lane of [tuplehash]: [acc += lane * XXPRIME_2; acc = rotl31(acc);
    acc *= XXPRIME_1] in unsigned 64-bit arithmetic. *)
Definition tuple_step (acc lane : Z) : Z :=
  let acc := (acc + (lane mod word64) * xxprime_2) mod word64 in
  (rotl31 acc * xxprime_1) mod word64.

(** [tuplehash] of a tuple whose items hash to [lanes]; the result as a
    signed [Py_hash_t]. *)
Definition tuple_hash (lanes : list Z) : Z :=
  let acc := fold_left tuple_step lanes xxprime_5 in
  let acc := (acc + Z.lxor (Z.of_nat (length lanes)) (Z.lxor xxprime_5 3527539)) mod word64 in
  if acc =? word64 - 1 then 1546275796
  else if acc <? 2 ^ 63 then acc else acc - word64.

(** The instance state of [VTKXDMFDashApp] used by the pipeline.
    [cutter_out] is the identity of [self.cutter]'s output object, reused by
    every update of the persistent cutter; [next_oid] supplies identities of
    freshly created objects; [recomputations] counts the cache misses that
    run [apply_slicing] and the packing. *)
Record Session := mkSession {
  params : Params;
  vtk_data : option Obj;
  original_data : option Obj;
  uploaded_file_path : option string;
  available_arrays : list string;
  current_array : option string;
  cutter_out : nat;
  cache : option (Key * Geometry);
  next_oid : nat;
  recomputations : nat
}.

Definition set_vtk_data (s : Session) (v : option Obj) (nid : nat) : Session :=
  mkSession (params s) v (original_data s) (uploaded_file_path s)
    (available_arrays s) (current_array s) (cutter_out s) (cache s) nid
    (recomputations s).

Definition set_cache (s : Session) (c : option (Key * Geometry)) : Session :=
  mkSession (params s) (vtk_data s) (original_data s) (uploaded_file_path s)
    (available_arrays s) (current_array s) (cutter_out s) c (next_oid s)
    (recomputations s).

Definition bump_recomputations (s : Session) : Session :=
  mkSession (params s) (vtk_data s) (original_data s) (uploaded_file_path s)
    (available_arrays s) (current_array s) (cutter_out s) (cache s)
    (next_oid s) (S (recomputations s)).

Definition set_params (s : Session) (p : Params) : Session :=
  mkSession p (vtk_data s) (original_data s) (uploaded_file_path s)
    (available_arrays s) (current_array s) (cutter_out s) (cache s)
    (next_oid s) (recomputations s).

(** ** [apply_slicing] *)

(** [range(n)] for a Python int. *)
Definition py_range (n : Z) : list Z := map Z.of_nat (seq 0 (Z.to_nat n)).

Definition axis_x (n : Point) : bool := let '(a, _, _) := n in Qeq_bool a 1.
Definition axis_y (n : Point) : bool := let '(_, b, _) := n in Qeq_bool b 1.

(** Single slice: the origin is the bounding-box centre, moved along the
    normal's axis by [slice_position] percent of the extent. *)
Definition single_plane (p : Params) (orig : Dataset) : Plane :=
  let b := GetBounds orig in
  let center_x := ((xmin b + xmax b) / 2)%Q in
  let center_y := ((ymin b + ymax b) / 2)%Q in
  let center_z := ((zmin b + zmax b) / 2)%Q in
  let pos := slice_position p in
  let n := slice_normal p in
  if axis_x n then
    mkPlane n ((center_x + pos * (xmax b - xmin b) / 100)%Q, center_y, center_z)
  else if axis_y n then
    mkPlane n (center_x, (center_y + pos * (ymax b - ymin b) / 100)%Q, center_z)
  else
    mkPlane n (center_x, center_y, (center_z + pos * (zmax b - zmin b) / 100)%Q).

(** [offset = (i - self.num_slices // 2) * self.slice_spacing]. *)
Definition slice_offset (p : Params) (i : Z) : Q :=
  (inject_Z (i - num_slices p / 2) * slice_spacing p)%Q.

(** Multi slice, plane [i]: origin [slice_position + offset] on the
    normal's axis, 0 elsewhere. *)
Definition multi_plane (p : Params) (i : Z) : Plane :=
  let c := (slice_position p + slice_offset p i)%Q in
  let n := slice_normal p in
  if axis_x n then mkPlane n (c, 0%Q, 0%Q)
  else if axis_y n then mkPlane n (0%Q, c, 0%Q)
  else mkPlane n (0%Q, 0%Q, c).

(** [vtkAppendPolyData]: points and polygons concatenated, point ids of
    later inputs shifted past the points of earlier ones (no merging of
    points); point scalars kept when every input has them; the output
    always gets a points object. *)
Fixpoint append_polys (ps : list PolyData) : PolyData :=
  match ps with
  | [] => mkPolyData [] [] (Some []) true
  | p :: rest =>
      let r := append_polys rest in
      mkPolyData (pd_points p ++ pd_points r)
        (pd_polys p ++ map (map (fun i => (i + length (pd_points p))%nat)) (pd_polys r))
        (match pd_scalars p, pd_scalars r with
         | Some a, Some b => Some (a ++ b)
         | _, _ => None
         end) true
  end.

Section Pipeline.

Variable ops : VtkOps.

(** One iteration of [for i in range(self.num_slices)]: the inputs added to
    [all_slices] and [slices_added]. *)
Definition multi_step (p : Params) (orig : Dataset)
    (acc : list PolyData * nat) (i : Z) : list PolyData * nat :=
  let '(inputs, added) := acc in
  let out := cut ops orig (multi_plane p i) in
  if (0 <? length (pd_points out))%nat then (inputs ++ [out], S added)
  else (inputs, added).

Definition multi_slices_of (p : Params) (orig : Dataset) : list PolyData * nat :=
  fold_left (multi_step p orig) (py_range (num_slices p)) ([], 0%nat).

Definition apply_slicing (s : Session) : Session :=
  let p := params s in
  match original_data s with
  | None => set_vtk_data s (original_data s) (next_oid s)
  | Some o =>
      if negb (slicing_enabled p) then set_vtk_data s (original_data s) (next_oid s)
      else if multiple_slices p then
        let '(inputs, added) := multi_slices_of p (odata o) in
        if (0 <? added)%nat then
          set_vtk_data s (Some (mkObj (next_oid s) (DPoly (append_polys inputs))))
            (S (next_oid s))
        else set_vtk_data s (original_data s) (next_oid s)
      else
        let out := cut ops (odata o) (single_plane p (odata o)) in
        if (0 <? length (pd_points out))%nat then
          set_vtk_data s (Some (mkObj (cutter_out s) (DPoly out))) (next_oid s)
        else set_vtk_data s (original_data s) (next_oid s)
  end.


(** ** [extract_geometry_data] *)

Definition key_of (s : Session) (o : Obj) : Key :=
  let p := params s in
  mkKey (oid o) (current_opacity p) (wireframe_mode p) (current_array s)
    (slicing_enabled p) (slice_position p) (slice_normal p)
    (multiple_slices p) (num_slices p).

Definition ostring_eqb (a b : option string) : bool :=
  match a, b with
  | Some x, Some y => String.eqb x y
  | None, None => true
  | _, _ => false
  end.

(** [hash] of the current array, a [str] or [None]. *)
Definition ostring_hash (a : option string) : Z :=
  match a with
  | Some x => str_hash ops x
  | None => none_hash ops
  end.

(** [current_hash = hash((id(self.vtk_data), ..., tuple(self.slice_normal),
    ...))]. *)
Definition key_hash (k : Key) : Z :=
  let '(nx, ny, nz) := k_normal k in
  tuple_hash [py_hash_Z (Z.of_nat (k_id k)); py_hash_Q (k_opacity k);
              py_hash_bool (k_wireframe k); ostring_hash (k_array k);
              py_hash_bool (k_enabled k); py_hash_Q (k_position k);
              tuple_hash [py_hash_Q nx; py_hash_Q ny; py_hash_Q nz];
              py_hash_bool (k_multi k); py_hash_Z (k_num k)].

(** [self._geometry_cache_hash == current_hash]: the cache keeps the hash
    of the key, so two keys match when their hashes are equal. *)
Definition key_eqb (a b : Key) : bool := Z.eqb (key_hash a) (key_hash b).

(** [not self.uploaded_file_path]. *)
Definition path_falsy (p : option string) : bool :=
  match p with
  | None => true
  | Some x => String.eqb x ""
  end.

(** The conversion to polydata by class; [None] is the [AttributeError]
    raised when a dataset without [GetPolys] reaches the last branch. *)
Definition to_polydata (s : Session) (d : Dataset) : option PolyData :=
  match d with
  | DUGrid _ => Some (surface ops d)
  | DImage _ => Some (image_geometry ops d)
  | _ =>
      let d' :=
        if path_falsy (uploaded_file_path s)
           && ostring_eqb (current_array s) (Some "Elevation"%string)
        then elevation ops d else d in
      match d' with
      | DPoly p => Some p
      | _ => None
      end
  end.

(** What a call returns: a dict ([None] is [{}]) or an exception. *)
Inductive Outcome :=
| Returned (g : option Geometry)
| Raised.

(** The cache-miss path: slicing, conversion, packing, caching; a
    polydata without points object raises at [points.GetNumberOfPoints()]. *)
Definition extract_miss (s : Session) (k : Key) : Session * Outcome :=
  let s1 := apply_slicing (bump_recomputations s) in
  match vtk_data s1 with
  | None => (s1, Raised)
  | Some o1 =>
      match to_polydata s1 (odata o1) with
      | None => (s1, Raised)
      | Some pd =>
          if negb (pd_points_obj pd) then (s1, Raised)
          else
            match pack (lut_color ops) (current_opacity (params s1))
                    (wireframe_mode (params s1)) pd with
            | None => (s1, Returned None)
            | Some g => (set_cache s1 (Some (k, g)), Returned (Some g))
            end
      end
  end.

Definition extract_geometry_data (s : Session) : Session * Outcome :=
  match vtk_data s with
  | None => (s, Returned None)
  | Some o =>
      let k := key_of s o in
      match cache s with
      | Some (k', g) => if key_eqb k' k then (s, Returned (Some g)) else extract_miss s k
      | None => extract_miss s k
      end
  end.

(** ** [load_xdmf_file] *)

Definition nonempty (x : string) : bool := negb (String.eqb x "").

Definition array_list (d : Dataset) : list string :=
  map (String.append "Point: ") (filter nonempty (point_array_names ops d))
  ++ map (String.append "Cell: ") (filter nonempty (cell_array_names ops d)).

(** The [try] body; a failure before the assignments ([read_xdmf] or
    [image_to_pointset] raising, [ValueError] on zero points) is caught and
    answered by [False] with the session untouched. A composite output gets
    through the assignments of [original_data], [vtk_data],
    [uploaded_file_path] and [available_arrays = []], then
    [output.GetPointData()] raises [AttributeError], caught as well: the
    call answers [False] with those fields already replaced. *)
Definition load_xdmf_file (path : string) (s : Session) : Session * bool :=
  match read_xdmf ops path with
  | None => (s, false)
  | Some out =>
      if (GetNumberOfPoints out =? 0)%nat then (s, false)
      else
        let conv := match out with
                    | DImage _ => image_to_pointset ops out
                    | _ => Some out
                    end in
        match conv with
        | None => (s, false)
        | Some (DComposite _ as out') =>
            let o := mkObj (next_oid s) out' in
            (mkSession (params s) (Some o) (Some o) (Some path) [] (current_array s)
               (cutter_out s) (cache s) (S (next_oid s)) (recomputations s), false)
        | Some out' =>
            let arrays := array_list out' in
            match arrays with
            | a :: _ =>
                let o := mkObj (next_oid s) (set_active_scalars ops out' a) in
                (mkSession (params s) (Some o) (Some o) (Some path) arrays (Some a)
                   (cutter_out s) (cache s) (S (next_oid s)) (recomputations s), true)
            | [] =>
                let o := mkObj (next_oid s) out' in
                let e := mkObj (S (next_oid s)) (elevation ops out') in
                (mkSession (params s) (Some e) (Some o) (Some path) [] (Some "Elevation"%string)
                   (cutter_out s) (cache s) (S (S (next_oid s))) (recomputations s), true)
            end
        end
  end.

End Pipeline.

(** ** Synthetic volume decimation ([create_large_volume_dataset]) *)

(** [range(start, stop, step)] for a positive [step]. *)
Definition py_range_step (start stop step : Z) : list Z :=
  let cnt := if stop <=? start then 0 else (stop - start + step - 1) / step in
  map (fun k => start + Z.of_nat k * step) (seq 0 (Z.to_nat cnt)).

(** [stride = max(1, min(nx, ny, nz) // 20)]. *)
Definition decimation_stride (nx ny nz : Z) : Z := Z.max 1 (Z.min nx (Z.min ny nz) / 20).

(** [[idx000, idx100, idx110, idx010, idx001, idx101, idx111, idx011]]. *)
Definition hex_corners (nx ny stride i j k : Z) : list Z :=
  let idx000 := k*nx*ny + j*nx + i in
  let idx100 := k*nx*ny + j*nx + (i+stride) in
  let idx010 := k*nx*ny + (j+stride)*nx + i in
  let idx110 := k*nx*ny + (j+stride)*nx + (i+stride) in
  let idx001 := (k+stride)*nx*ny + j*nx + i in
  let idx101 := (k+stride)*nx*ny + j*nx + (i+stride) in
  let idx011 := (k+stride)*nx*ny + (j+stride)*nx + i in
  let idx111 := (k+stride)*nx*ny + (j+stride)*nx + (i+stride) in
  [idx000; idx100; idx110; idx010; idx001; idx101; idx111; idx011].

Definition zlist_max (l : list Z) : Z :=
  match l with
  | [] => 0
  | x :: r => fold_left Z.max r x
  end.

(** The loop nest building [connectivity]; [len(scalars)] is the number of
    points [nx * ny * nz] of the image. *)
Definition connectivity (nx ny nz : Z) : list (list Z) :=
  let stride := decimation_stride nx ny nz in
  let npts := nx * ny * nz in
  flat_map (fun k =>
    flat_map (fun j =>
      flat_map (fun i =>
        let c := hex_corners nx ny stride i j k in
        if zlist_max c <? npts then [c] else [])
        (py_range_step 0 (nx - stride) stride))
      (py_range_step 0 (ny - stride) stride))
    (py_range_step 0 (nz - stride) stride).

(** ** Array selections ([apply_array_coloring]) *)

(** How [apply_array_coloring] reads a selection string:
    [startswith("Point: ")] then [[7:]], else [startswith("Cell: ")] then
    [[6:]]. *)
Inductive Selection :=
| PointSel (name : string)
| CellSel (name : string)
| OtherSel.

Definition parse_selection (a : string) : Selection :=
  if String.prefix "Point: " a then PointSel (substring 7 (String.length a - 7) a)
  else if String.prefix "Cell: " a then CellSel (substring 6 (String.length a - 6) a)
  else OtherSel.

Section Coloring.

Variable ops : VtkOps.

(** [apply_array_coloring]: nothing when the selection is empty or there is
    no dataset; otherwise the array, if the dataset has it, is made active
    on the [vtk_data] object in place (so also on [original_data] when that
    is the same object), and [current_array] becomes the selection. *)
Definition apply_array_coloring (sel : option string) (s : Session) : Session :=
  match sel, vtk_data s with
  | Some a, Some o =>
      if String.eqb a "" then s
      else
        let found :=
          match parse_selection a with
          | PointSel n => existsb (String.eqb n) (point_array_names ops (odata o))
          | CellSel n => existsb (String.eqb n) (cell_array_names ops (odata o))
          | OtherSel => false
          end in
        let o' := if found then mkObj (oid o) (set_active_scalars ops (odata o) a) else o in
        let orig' :=
          match original_data s with
          | Some o0 => if Nat.eqb (oid o0) (oid o) then Some o' else Some o0
          | None => None
          end in
        mkSession (params s) (Some o') orig' (uploaded_file_path s)
          (available_arrays s) (Some a) (cutter_out s) (cache s) (next_oid s)
          (recomputations s)
  | _, _ => s
  end.

End Coloring.

(** ** [load_large_dataset], [regenerate_vtk_pipeline] and the
    [update_vtk_geometry] callback *)

(** The XDMF and HDF5 files of each [dataset_type]; [None] for an unknown
    type (the final [return False]). *)
Definition dataset_files (dataset_type : string) : option (string * string) :=
  if String.eqb dataset_type "volume" then
    Some ("large_volume.xdmf"%string, "large_volume.h5"%string)
  else if String.eqb dataset_type "extra_large_volume" then
    Some ("extra_large_volume.xdmf"%string, "extra_large_volume.h5"%string)
  else if String.eqb dataset_type "unstructured" then
    Some ("large_unstructured.xdmf"%string, "large_unstructured.h5"%string)
  else None.

(** The component id that triggered the callback, mapped to the
    [dataset_type] its button loads. *)
Definition button_dataset (trigger_id : string) : option string :=
  if String.eqb trigger_id "create-volume-btn" then Some "volume"%string
  else if String.eqb trigger_id "create-extra-large-volume-btn" then
    Some "extra_large_volume"%string
  else if String.eqb trigger_id "create-unstructured-btn" then Some "unstructured"%string
  else None.

(** The values of the callback's inputs; [None] is a Python [None]. *)
Record UiInputs := mkUiInputs {
  in_opacity : option Q;
  in_wireframe : option bool;
  in_array : option string;
  in_enabled : option bool;
  in_position : option Q;
  in_normal : option string;
  in_multi : option bool;
  in_num : option Z;
  in_spacing : option Q
}.

(** Python's [v or d] on a number, a boolean ([d] is [False]). *)
Definition q_or (v : option Q) (d : Q) : Q :=
  match v with
  | Some q => if Qeq_bool q 0 then d else q
  | None => d
  end.

Definition z_or (v : option Z) (d : Z) : Z :=
  match v with
  | Some z => if Z.eqb z 0 then d else z
  | None => d
  end.

Definition b_or (v : option bool) : bool :=
  match v with
  | Some b => b
  | None => false
  end.

(** The slice normal dropdown: ["x"], ["y"], anything else is [z]. *)
Definition normal_of (v : option string) : Point :=
  match v with
  | Some n =>
      if String.eqb n "x" then (1, 0, 0)%Q
      else if String.eqb n "y" then (0, 1, 0)%Q
      else (0, 0, 1)%Q
  | None => (0, 0, 1)%Q
  end.

(** The assignments at the top of [update_vtk_geometry]: opacity and
    wireframe always; the slicing fields only when a control other than the
    three dataset buttons triggered the call. *)
Definition update_params (trig : option string) (u : UiInputs) (p : Params) : Params :=
  let op := match in_opacity u with Some q => q | None => 1%Q end in
  let wf := match in_wireframe u with Some b => b | None => false end in
  let keep := mkParams op wf (slicing_enabled p) (slice_position p) (slice_normal p)
                (multiple_slices p) (num_slices p) (slice_spacing p) in
  match trig with
  | Some t =>
      match button_dataset t with
      | Some _ => keep
      | None =>
          mkParams op wf (b_or (in_enabled u)) (q_or (in_position u) 0)
            (normal_of (in_normal u)) (b_or (in_multi u)) (z_or (in_num u) 5)
            (q_or (in_spacing u) 10 / 10)%Q
      end
  | None => keep
  end.

Section Callbacks.

Variable ops : VtkOps.

(** [os.path.exists], as seen by the process. *)
Variable file_exists : string -> bool.

(** [load_large_dataset]: when both files exist and [load_xdmf_file]
    succeeds, slicing is switched on along [x] at position 0. *)
Definition load_large_dataset (dataset_type : string) (s : Session) : Session * bool :=
  match dataset_files dataset_type with
  | None => (s, false)
  | Some (xdmf, h5) =>
      if file_exists xdmf && file_exists h5 then
        let '(s1, success) := load_xdmf_file ops xdmf s in
        if success then
          let p := params s1 in
          (set_params s1 (mkParams (current_opacity p) (wireframe_mode p) true 0
                            (1, 0, 0)%Q (multiple_slices p) (num_slices p)
                            (slice_spacing p)), true)
        else (s1, false)
      else (s, false)
  end.

(** [update_vtk_geometry]: parameters, array colouring when the selection
    changed, the dataset button, then [extract_geometry_data]. *)
Definition update_vtk_geometry (trig : option string) (u : UiInputs) (s : Session)
    : Session * Outcome :=
  let s1 := set_params s (update_params trig u (params s)) in
  let s2 :=
    match in_array u with
    | Some a =>
        if nonempty a && negb (ostring_eqb (Some a) (current_array s1))
        then apply_array_coloring ops (Some a) s1 else s1
    | None => s1
    end in
  let s3 :=
    match trig with
    | Some t =>
        match button_dataset t with
        | Some ty => fst (load_large_dataset ty s2)
        | None => s2
        end
    | None => s2
    end in
  extract_geometry_data ops s3.

End Callbacks.

(** [regenerate_vtk_pipeline]: a new sphere of the given resolution becomes
    [vtk_data]; [original_data] is left alone. *)
Definition regenerate_vtk_pipeline (sphere_source : Z -> Dataset) (resolution : Z)
    (s : Session) : Session :=
  set_vtk_data s (Some (mkObj (next_oid s) (sphere_source resolution))) (S (next_oid s)).

(** [load_example_files]: the button that triggered the call, with its
    click count truthy, loads its dataset; the outputs kept are the array
    dropdown's options and value (the status message is left out). *)
Definition example_dataset (button_id : string) : option string :=
  if String.eqb button_id "load-large-volume-btn" then Some "volume"%string
  else if String.eqb button_id "load-extra-large-volume-btn" then
    Some "extra_large_volume"%string
  else if String.eqb button_id "load-unstructured-btn" then Some "unstructured"%string
  else None.

(** [n_clicks] is [None] or a count; truthy when non-zero. *)
Definition clicks_truthy (c : option nat) : bool :=
  match c with Some n => negb (Nat.eqb n 0) | None => false end.

Definition load_example_files (ops : VtkOps) (file_exists : string -> bool)
    (trig : option string) (large_volume_clicks extra_large_volume_clicks
    unstructured_clicks : option nat) (s : Session)
    : Session * (list string * option string) :=
  match trig with
  | None => (s, ([], None))
  | Some button_id =>
      let clicks :=
        if String.eqb button_id "load-large-volume-btn" then large_volume_clicks
        else if String.eqb button_id "load-extra-large-volume-btn" then
          extra_large_volume_clicks
        else unstructured_clicks in
      match example_dataset button_id with
      | Some ty =>
          if clicks_truthy clicks then
            let '(s1, success) := load_large_dataset ops file_exists ty s in
            if success then (s1, (available_arrays s1, current_array s1))
            else (s1, ([], None))
          else (s, ([], None))
      | None => (s, ([], None))
      end
  end.

(** The title output of [update_colorbar_labels]: the selection without
    its ["Point: "] or ["Cell: "] prefix, the whole selection otherwise,
    ["Scalar Field"] without a selection or a dataset. *)
Definition colorbar_title (array_selection : option string) (has_data : bool) : string :=
  match array_selection with
  | Some a =>
      if nonempty a && has_data then
        match parse_selection a with
        | PointSel n | CellSel n => n
        | OtherSel => a
        end
      else "Scalar Field"%string
  | None => "Scalar Field"%string
  end.

(** [self.vtk_data] truthy. *)
Definition has_vtk_data (s : Session) : bool :=
  match vtk_data s with Some _ => true | None => false end.

(** ** The cylinder mesh of [create_complex_mesh_xdmf] *)

(** The loop nest building its [connectivity], for [n_theta] points around
    and [n_z] layers: two triangles per quad between layers [k] and [k+1],
    wrapping around with [(i + 1) % n_theta]. *)
Definition cylinder_connectivity (n_theta n_z : nat) : list (list nat) :=
  flat_map (fun k =>
    flat_map (fun i =>
      let i_next := ((i + 1) mod n_theta)%nat in
      let v0 := (k * n_theta + i)%nat in
      let v1 := (k * n_theta + i_next)%nat in
      let v2 := ((k + 1) * n_theta + i_next)%nat in
      let v3 := ((k + 1) * n_theta + i)%nat in
      [[v0; v1; v2]; [v0; v2; v3]])
      (seq 0 n_theta))
    (seq 0 (n_z - 1)).

(** [n_theta = 8], [n_z = 3] as in the source. *)
Definition complex_mesh_connectivity : list (list nat) := cylinder_connectivity 8 3.

(** ** Concrete instances used by the examples *)

Definition tri_pd : PolyData :=
  mkPolyData [(0, 0, 0); (1, 0, 0); (0, 1, 0)]%Q [[0; 1; 2]]%nat None true.

Definition empty_pd : PolyData := mkPolyData [] [] None true.

(** A cutter that finds a triangle for planes whose origin lies beyond
    [x = 5] and nothing otherwise. *)
Definition demo_cut (d : Dataset) (pl : Plane) : PolyData :=
  let '(x, _, _) := origin pl in
  if Qle_bool x 5 then empty_pd else tri_pd.

(** A surface filter whose output for an unstructured grid without cells
    has no points object. *)
Definition demo_surface (d : Dataset) : PolyData :=
  match d with
  | DUGrid g => match g_cells g with [] => mkPolyData [] [] None false | _ => empty_pd end
  | _ => empty_pd
  end.

(** A string hash standing for the per-process one. *)
Fixpoint demo_str_hash (x : string) : Z :=
  match x with
  | EmptyString => 0
  | String c r => (Z.of_nat (Ascii.nat_of_ascii c) + 31 * demo_str_hash r) mod py_modulus
  end.

(** [hash(None)] of CPython 3.12 and later. *)
Definition none_hash_312 : Z := 4238894112.

(** Three points with no cell, in a grid and as a collection of grids. *)
Definition cloud_grid : Grid := mkGrid [(0, 0, 0); (1, 0, 0); (0, 1, 0)]%Q [] None.

Definition demo_ops : VtkOps :=
  mkVtkOps demo_cut demo_surface (fun _ => empty_pd) (fun d => d)
    (fun _ => (0, 0, 1)%Q)
    (fun path => if String.eqb path "empty.xdmf" then Some (DPoly empty_pd)
                 else if String.eqb path "tri.xdmf" then Some (DPoly tri_pd)
                 else if String.eqb path "collection.xdmf" then Some (DComposite cloud_grid)
                 else if String.eqb path "points.xdmf" then Some (DUGrid cloud_grid)
                 else None)
    (fun d => Some d) (fun _ => ["Density"%string]) (fun _ => [])
    (fun d _ => d) demo_str_hash none_hash_312.

Definition demo_params (multi : bool) (spacing : Q) : Params :=
  mkParams 1 false true 0 (1, 0, 0)%Q multi 3 spacing.

(** A loaded polydata spanning [x] in [[10, 20]], slicing enabled, before
    any extraction. *)
Definition demo_mesh : Dataset :=
  DPoly (mkPolyData [(10, 0, 0); (20, 0, 0); (10, 1, 0)]%Q [[0; 1; 2]]%nat None true).

Definition demo_session (p : Params) : Session :=
  mkSession p (Some (mkObj 0 demo_mesh)) (Some (mkObj 0 demo_mesh))
    (Some "mesh.xdmf"%string) [] None 1 None 2 0.

(** A reader that finds an image volume in [large_volume.xdmf], converted
    by [vtkImageDataToPointSet] to a structured grid. *)
Definition vol_grid : Grid :=
  mkGrid [(0, 0, 0); (1, 0, 0); (0, 1, 0)]%Q [[0; 1; 2]]%nat None.

Definition image_ops : VtkOps :=
  mkVtkOps demo_cut (fun _ => empty_pd) (fun _ => empty_pd) (fun d => d)
    (fun _ => (0, 0, 1)%Q)
    (fun path => if String.eqb path "large_volume.xdmf" then Some (DImage vol_grid)
                 else None)
    (fun d => match d with DImage g => Some (DStructured g) | _ => Some d end)
    (fun _ => ["RandomField"%string]) (fun _ => [])
    (fun d _ => d) demo_str_hash none_hash_312.

(** Parameters with slicing switched off. *)
Definition unsliced_params : Params := mkParams 1 false false 0 (1, 0, 0)%Q false 5 1.

Example fan_quad : fan [4; 5; 6; 7]%nat = [4; 5; 6; 4; 6; 7]%nat.
Proof. reflexivity. Qed.

Example stride_100 : decimation_stride 100 100 100 = 5.
Proof. reflexivity. Qed.

Example range_step_ex : py_range_step 0 95 5 = [0; 5; 10; 15; 20; 25; 30; 35; 40; 45;
  50; 55; 60; 65; 70; 75; 80; 85; 90].
Proof. reflexivity. Qed.

Example pack_tri : option_map faces (pack (fun _ => (0, 0, 0)%Q) 1 false tri_pd)
  = Some [0; 1; 2]%nat.
Proof. reflexivity. Qed.

(** ** Lemmas about packing *)

Lemma fan_length (ids : list nat) :
  length (fan ids) = if (3 <=? length ids)%nat then (3 * (length ids - 2))%nat else 0%nat.
Proof.
  unfold fan. destruct (3 <=? length ids)%nat; [|reflexivity].
  rewrite <- (length_seq (length ids - 2) 1) at 2.
  induction (seq 1 (length ids - 2)) as [|i l IH]; [reflexivity|].
  simpl. rewrite IH. lia.
Qed.

Lemma extract_faces_mod3 (polys : list (list nat)) :
  (length (extract_faces polys) mod 3 = 0)%nat.
Proof.
  unfold extract_faces. induction polys as [|ids rest IH]; [reflexivity|].
  cbn [flat_map]. rewrite length_app, fan_length.
  destruct (3 <=? length ids)%nat.
  - rewrite (Nat.mul_comm 3), Nat.add_comm, Nat.Div0.mod_add. exact IH.
  - exact IH.
Qed.

Lemma fan_in (ids : list nat) (x : nat) : In x (fan ids) -> In x ids.
Proof.
  unfold fan. destruct (3 <=? length ids)%nat eqn:E; [|intros []].
  apply Nat.leb_le in E.
  intro H. apply in_flat_map in H as [i [Hi Hx]].
  apply in_seq in Hi.
  destruct Hx as [<- | [<- | [<- | []]]]; apply nth_In; lia.
Qed.

Lemma extract_faces_in (polys : list (list nat)) (x : nat) :
  In x (extract_faces polys) -> exists ids, In ids polys /\ In x ids.
Proof.
  unfold extract_faces. intro H. apply in_flat_map in H as [ids [Hin Hx]].
  exists ids. split; [exact Hin | apply fan_in; exact Hx].
Qed.

Lemma extract_faces_short (polys : list (list nat)) :
  Forall (fun ids => (length ids < 3)%nat) polys -> extract_faces polys = [].
Proof.
  induction 1 as [|ids rest Hlen _ IH]; [reflexivity|].
  unfold extract_faces in *. simpl. rewrite IH.
  unfold fan. replace (3 <=? length ids)%nat with false; [reflexivity|].
  symmetry. apply Nat.leb_gt. exact Hlen.
Qed.

Lemma extract_colors_length lut sc n : length (extract_colors lut sc n) = (3 * n)%nat.
Proof.
  destruct sc as [sc|]; simpl.
  - assert (Hl : forall l, length (flat_map (fun i => color_coords (lut (nth i sc 0%Q))) l)
                          = (3 * length l)%nat).
    { induction l as [|i l IH]; [reflexivity|].
      cbn [flat_map]. rewrite length_app, IH.
      destruct (lut (nth i sc 0%Q)) as [[r g] b]. simpl. lia. }
    rewrite Hl, length_seq. reflexivity.
  - induction n as [|n IH]; [reflexivity|]. simpl. lia.
Qed.

Lemma vertices_length (pts : list Point) :
  length (flat_map point_coords pts) = (3 * length pts)%nat.
Proof.
  induction pts as [|[[x y] z] rest IH]; [reflexivity|].
  simpl. rewrite IH. lia.
Qed.

(** The packing invariant on well-formed polydata: every polygon refers to
    existing points, and either a polygon yields a triangle or the
    fallback triangle refers to existing points. *)
Lemma pack_invariant_wellformed lut op wf pd g :
  pack lut op wf pd = Some g ->
  Forall (fun ids => Forall (fun i => i < length (pd_points pd))%nat ids) (pd_polys pd) ->
  (extract_faces (pd_polys pd) <> [] \/ (3 <= length (pd_points pd))%nat) ->
  (length (faces g) mod 3 = 0)%nat
  /\ Forall (fun i => i < vertex_count g)%nat (faces g)
  /\ length (colors g) = (3 * vertex_count g)%nat
  /\ length (vertices g) = (3 * vertex_count g)%nat.
Proof.
  unfold pack. intros Hp Hwf Hne.
  destruct (length (pd_points pd) =? 0)%nat eqn:E0; [discriminate|].
  injection Hp as <-. simpl.
  apply Nat.eqb_neq in E0.
  destruct (extract_faces (pd_polys pd)) as [|f fs] eqn:Ef.
  - destruct Hne as [Hne|Hne]; [congruence|].
    simpl. replace (0 <? length (pd_points pd))%nat with true
      by (symmetry; apply Nat.ltb_lt; lia).
    split; [reflexivity|].
    split; [repeat constructor; lia|].
    split; [apply extract_colors_length | rewrite length_map; apply vertices_length].
  - simpl fallback_faces. rewrite <- Ef.
    split; [apply extract_faces_mod3|].
    split.
    + apply Forall_forall. intros x Hx.
      destruct (extract_faces_in _ _ Hx) as [ids [Hin Hxi]].
      rewrite Forall_forall in Hwf. specialize (Hwf ids Hin).
      rewrite Forall_forall in Hwf. apply Hwf. exact Hxi.
    + split; [apply extract_colors_length | rewrite length_map; apply vertices_length].
Qed.

(** ** Claims about packing, decimation, loading and empty results *)

Definition one_point_pd : PolyData := mkPolyData [(0, 0, 0)%Q] [] None true.

Definition cloud_pd : PolyData :=
  mkPolyData [(0, 0, 0); (1, 0, 0); (0, 1, 0)]%Q [] None true.

(** C1 (failing input): a polydata with a single point and no polygon is
    packed with the fallback triangle [[0, 1, 2]] while [vertex_count] is 1,
    so indices 1 and 2 are out of range. *)
Theorem C1_fallback_index_out_of_range :
  exists g, pack (fun _ => (0, 0, 0)%Q) 1 false one_point_pd = Some g
    /\ faces g = [0; 1; 2]%nat /\ vertex_count g = 1%nat
    /\ ~ Forall (fun i => i < vertex_count g)%nat (faces g).
Proof.
  eexists. split; [reflexivity|].
  split; [reflexivity|]. split; [reflexivity|].
  simpl. intro H. inversion H as [|? ? H1 H2]. inversion H2. lia.
Qed.

(** C2 (amended): a polydata with at least three points and no polygon of
    three or more vertices is not packed with an empty index array: the
    packer synthesizes the fallback triangle [[0, 1, 2]], one face. *)
Theorem C2_no_polygons_fallback_triangle lut op wf pd :
  (3 <= length (pd_points pd))%nat ->
  Forall (fun ids => (length ids < 3)%nat) (pd_polys pd) ->
  exists g, pack lut op wf pd = Some g /\ faces g = [0; 1; 2]%nat /\ face_count g = 1%nat.
Proof.
  intros Hpts Hpolys. unfold pack.
  destruct (pd_points pd) as [|p rest] eqn:Ep; [cbn in Hpts; lia|].
  simpl length. cbv iota beta.
  rewrite (extract_faces_short _ Hpolys).
  eexists. split; [reflexivity|]. split; reflexivity.
Qed.

Lemma C2_witness :
  exists g, pack (fun _ => (0, 0, 0)%Q) 1 false cloud_pd = Some g
    /\ faces g = [0; 1; 2]%nat /\ face_count g = 1%nat.
Proof.
  apply (C2_no_polygons_fallback_triangle (fun _ => (0, 0, 0)%Q) 1 false cloud_pd).
  - cbn. lia.
  - constructor.
Defined.

(** C2 (counterexample): three points, no polygon; the packed face list is
    not empty. *)
Lemma C2_cloud_not_empty_faces :
  exists g, pack (fun _ => (0, 0, 0)%Q) 1 false cloud_pd = Some g /\ faces g <> [].
Proof. eexists. split; [reflexivity | discriminate]. Qed.

Lemma zlist_max_bound (l : list Z) (n : Z) :
  zlist_max l < n -> Forall (fun x => x < n) l.
Proof.
  destruct l as [|x r]; [constructor|]. simpl.
  assert (Hg : forall r acc, acc <= fold_left Z.max r acc
                /\ Forall (fun y => y <= fold_left Z.max r acc) r).
  { induction r0 as [|y r0 IH]; intro acc; simpl.
    - split; [lia | constructor].
    - destruct (IH (Z.max acc y)) as [H1 H2].
      split; [lia|]. constructor; [lia | exact H2]. }
  intro H. destruct (Hg r x) as [H1 H2].
  constructor; [lia|].
  eapply Forall_impl; [|exact H2]. simpl. intros. lia.
Qed.

(** C8: the stride is [max(1, min(nx, ny, nz) // 20)]; for a 100^3 volume
    it is 5 and exactly 6859 hexahedra are emitted; every corner index of
    every emitted hexahedron is below the point count [nx * ny * nz]. *)
Theorem C8_decimation_stride_and_count :
  (forall nx ny nz, decimation_stride nx ny nz = Z.max 1 (Z.min nx (Z.min ny nz) / 20))
  /\ decimation_stride 100 100 100 = 5
  /\ Z.of_nat (length (connectivity 100 100 100)) = 6859
  /\ (forall nx ny nz c, In c (connectivity nx ny nz) -> Forall (fun x => x < nx * ny * nz) c).
Proof.
  split; [reflexivity|]. split; [reflexivity|]. split; [vm_compute; reflexivity|].
  intros nx ny nz c H. unfold connectivity in H.
  apply in_flat_map in H as [k [_ H]].
  apply in_flat_map in H as [j [_ H]].
  apply in_flat_map in H as [i [_ H]].
  destruct (zlist_max _ <? _) eqn:E; [|destruct H].
  destruct H as [<- | []].
  apply zlist_max_bound. apply Z.ltb_lt. exact E.
Qed.

Lemma C8_witness :
  Forall (fun x => x < 2 * 2 * 2) (hex_corners 2 2 1 0 0 0).
Proof.
  apply (proj2 (proj2 (proj2 C8_decimation_stride_and_count)) 2 2 2).
  vm_compute. left. reflexivity.
Defined.

(** A load whose reader output has zero points answers [False] and
    leaves the session as it was. *)
Lemma load_xdmf_zero_points ops path s out :
  read_xdmf ops path = Some out -> GetNumberOfPoints out = 0%nat ->
  load_xdmf_file ops path s = (s, false).
Proof. intros Hr H0. unfold load_xdmf_file. rewrite Hr, H0. reflexivity. Qed.

(** A session with a polydata loaded, its array selected, slicing off. *)
Definition c9_session : Session :=
  mkSession unsliced_params (Some (mkObj 0 demo_mesh)) (Some (mkObj 0 demo_mesh))
    (Some "mesh.xdmf"%string) ["Point: Density"%string] (Some "Point: Density"%string)
    1 None 2 0.

(** C9 (failing input): loading [collection.xdmf], whose reader output is a
    collection of grids with three points, answers [False], yet
    [original_data], [vtk_data], [uploaded_file_path] and
    [available_arrays] have been replaced; the previous session extracted
    geometry, the new one raises at every extraction. *)
Theorem C9_composite_load_fails_with_state_changed :
  let '(s1, ok) := load_xdmf_file demo_ops "collection.xdmf" c9_session in
  ok = false
  /\ original_data s1 <> original_data c9_session
  /\ vtk_data s1 <> vtk_data c9_session
  /\ uploaded_file_path s1 = Some "collection.xdmf"%string
  /\ available_arrays s1 = [] /\ available_arrays c9_session <> []
  /\ snd (extract_geometry_data demo_ops s1) = Raised
  /\ snd (extract_geometry_data demo_ops c9_session) <> Raised.
Proof.
  vm_compute. split; [reflexivity|]. split; [discriminate|]. split; [discriminate|].
  split; [reflexivity|]. split; [reflexivity|]. split; [discriminate|].
  split; [reflexivity | discriminate].
Qed.

(** The cache-miss path raises on a polydata without points object. *)
Lemma extract_miss_no_points_obj ops s k o1 pd :
  vtk_data (apply_slicing ops (bump_recomputations s)) = Some o1 ->
  to_polydata ops (apply_slicing ops (bump_recomputations s)) (odata o1) = Some pd ->
  pd_points_obj pd = false ->
  extract_miss ops s k = (apply_slicing ops (bump_recomputations s), Raised).
Proof. intros Hv Ht Hp. unfold extract_miss. rewrite Hv, Ht, Hp. reflexivity. Qed.

(** C10 (failing input): [points.xdmf] holds an unstructured grid of three
    points and no cell; it loads, but its surface polydata has no points
    object and the extraction raises instead of returning [{}]. *)
Theorem C10_cellless_grid_raises :
  let '(s1, ok) := load_xdmf_file demo_ops "points.xdmf" (demo_session (demo_params false 1)) in
  ok = true /\ pd_points_obj (surface demo_ops (DUGrid cloud_grid)) = false
  /\ snd (extract_geometry_data demo_ops s1) = Raised.
Proof. vm_compute. repeat split. Qed.

(** ** Claims about slicing *)

Definition nonempty_pd (pd : PolyData) : bool := (0 <? length (pd_points pd))%nat.

(** The non-empty sub-slices, in plane order. *)
Definition multi_outputs (ops : VtkOps) (p : Params) (d : Dataset) : list PolyData :=
  filter nonempty_pd (map (fun i => cut ops d (multi_plane p i)) (py_range (num_slices p))).

Definition dot (a b : Point) : Q :=
  let '(a1, a2, a3) := a in
  let '(b1, b2, b3) := b in
  (a1 * b1 + a2 * b2 + a3 * b3)%Q.

Lemma multi_fold ops p d l inputs added :
  fold_left (multi_step ops p d) l (inputs, added)
  = (inputs ++ filter nonempty_pd (map (fun i => cut ops d (multi_plane p i)) l),
     (added + length (filter nonempty_pd (map (fun i => cut ops d (multi_plane p i)) l)))%nat).
Proof.
  revert inputs added. induction l as [|i l IH]; intros inputs added.
  - simpl. rewrite app_nil_r, Nat.add_0_r. reflexivity.
  - simpl.
    change (nonempty_pd (cut ops d (multi_plane p i)))
      with (0 <? length (pd_points (cut ops d (multi_plane p i))))%nat.
    destruct (0 <? length (pd_points (cut ops d (multi_plane p i))))%nat eqn:E.
    + rewrite IH. simpl. rewrite <- app_assoc. f_equal. lia.
    + rewrite IH. reflexivity.
Qed.

Lemma multi_slices_of_outputs ops p d :
  multi_slices_of ops p d = (multi_outputs ops p d, length (multi_outputs ops p d)).
Proof. unfold multi_slices_of, multi_outputs. rewrite multi_fold. reflexivity. Qed.

Lemma multi_outputs_empty ops p d :
  Forall (fun i => pd_points (cut ops d (multi_plane p i)) = []) (py_range (num_slices p)) ->
  multi_outputs ops p d = [].
Proof.
  unfold multi_outputs. induction 1 as [|i l Hi _ IH]; [reflexivity|].
  simpl. unfold nonempty_pd at 1. rewrite Hi. exact IH.
Qed.

(** C3: when the cut has no point (single slice), or no sub-slice has a
    point (multi slice), [apply_slicing] sets [vtk_data] back to the
    unsliced [original_data] object and changes nothing else; it has no
    error outcome. *)
Theorem C3_empty_cut_falls_back ops s o :
  original_data s = Some o ->
  slicing_enabled (params s) = true ->
  (if multiple_slices (params s)
   then Forall (fun i => pd_points (cut ops (odata o) (multi_plane (params s) i)) = [])
               (py_range (num_slices (params s)))
   else pd_points (cut ops (odata o) (single_plane (params s) (odata o))) = []) ->
  apply_slicing ops s = set_vtk_data s (Some o) (next_oid s).
Proof.
  intros Ho He Hcut. unfold apply_slicing. rewrite Ho, He. simpl negb. cbv iota.
  destruct (multiple_slices (params s)).
  - rewrite multi_slices_of_outputs, (multi_outputs_empty _ _ _ Hcut). reflexivity.
  - rewrite Hcut. reflexivity.
Qed.

Lemma C3_witness :
  apply_slicing demo_ops (demo_session (demo_params true 1))
  = set_vtk_data (demo_session (demo_params true 1)) (Some (mkObj 0 demo_mesh)) 2.
Proof.
  apply (C3_empty_cut_falls_back demo_ops (demo_session (demo_params true 1))
           (mkObj 0 demo_mesh)); [reflexivity | reflexivity |].
  vm_compute. repeat constructor.
Defined.

(** C7: in multi-slice mode plane [i] has the shared normal and lies at
    [slice_position + (i - N // 2) * spacing] along it; each plane is cut
    independently from the original dataset; the non-empty cuts are
    appended into one new polydata (or, if none, the original is kept),
    whose points are the sub-slices' points concatenated, unwelded. *)
Theorem C7_multi_slice_concat ops s o :
  original_data s = Some o ->
  slicing_enabled (params s) = true ->
  multiple_slices (params s) = true ->
  (forall i, normal (multi_plane (params s) i) = slice_normal (params s))
  /\ (In (slice_normal (params s)) [(1, 0, 0); (0, 1, 0); (0, 0, 1)]%Q ->
      forall i, (dot (slice_normal (params s)) (origin (multi_plane (params s) i))
                 == slice_position (params s)
                    + inject_Z (i - num_slices (params s) / 2) * slice_spacing (params s))%Q)
  /\ vtk_data (apply_slicing ops s)
     = match multi_outputs ops (params s) (odata o) with
       | [] => Some o
       | outs => Some (mkObj (next_oid s) (DPoly (append_polys outs)))
       end
  /\ (forall outs, pd_points (append_polys outs) = flat_map pd_points outs
       /\ length (pd_polys (append_polys outs))
          = list_sum (map (fun pd => length (pd_polys pd)) outs)).
Proof.
  intros Ho He Hm. split; [|split; [|split]].
  - intro i. unfold multi_plane.
    destruct (axis_x _); [reflexivity|]. destruct (axis_y _); reflexivity.
  - intros Hn i. unfold multi_plane, slice_offset.
    destruct Hn as [Hn | [Hn | [Hn | []]]]; rewrite <- Hn; simpl; ring.
  - unfold apply_slicing. rewrite Ho, He, Hm. simpl negb. cbv iota.
    rewrite multi_slices_of_outputs.
    destruct (multi_outputs ops (params s) (odata o)); reflexivity.
  - induction outs as [|pd outs IH]; [split; reflexivity|].
    destruct IH as [IH1 IH2]. simpl. rewrite IH1, length_app, length_map, IH2.
    split; reflexivity.
Qed.

Lemma C7_witness :
  vtk_data (apply_slicing demo_ops (demo_session (demo_params true 10)))
  = Some (mkObj 2 (DPoly (append_polys [tri_pd]))).
Proof.
  apply (C7_multi_slice_concat demo_ops (demo_session (demo_params true 10))
           (mkObj 0 demo_mesh)); reflexivity.
Defined.

(** ** Claims about plane placement and the cache *)

(** Single slice: along the normal's axis the plane sits at the bounding-box
    centre plus [slice_position] percent of the extent, from the bounds of
    the original dataset at call time. *)
Lemma single_plane_x p d :
  axis_x (slice_normal p) = true ->
  let b := GetBounds d in
  fst (fst (origin (single_plane p d)))
  = ((xmin b + xmax b) / 2 + slice_position p * (xmax b - xmin b) / 100)%Q.
Proof. intros H. unfold single_plane. rewrite H. reflexivity. Qed.

(** The placement the claim describes for multi-slice plane [i] on the
    [x] axis: bounds-resolved position plus the offset. *)
Definition claimed_multi_x (p : Params) (d : Dataset) (i : Z) : Q :=
  let b := GetBounds d in
  ((xmin b + xmax b) / 2 + slice_position p * (xmax b - xmin b) / 100
   + slice_offset p i)%Q.

Definition c6_params : Params := mkParams 1 false true 0 (1, 0, 0)%Q true 2 1.

(** C6 (failing input): on [demo_mesh] ([x] in [[10, 20]]), position 0,
    normal [x], two slices, spacing 1: the single-slice plane is at the
    centre [x = 15], but the multi-slice plane with offset 0 is at [x = 0],
    not at the bounds-resolved [x = 15]. *)
Theorem C6_multi_slice_position_not_bounds_resolved :
  (fst (fst (origin (single_plane c6_params demo_mesh))) == 15)%Q
  /\ (fst (fst (origin (multi_plane c6_params 1))) == 0)%Q
  /\ (claimed_multi_x c6_params demo_mesh 1 == 15)%Q
  /\ ~ (fst (fst (origin (multi_plane c6_params 1))) == claimed_multi_x c6_params demo_mesh 1)%Q.
Proof.
  split; [reflexivity|]. split; [reflexivity|]. split; [reflexivity|].
  vm_compute. discriminate.
Qed.

(** The fingerprint does not read [slice_spacing]. *)
Lemma key_of_ignores_spacing s o sp :
  let p := params s in
  key_of (set_params s (mkParams (current_opacity p) (wireframe_mode p)
            (slicing_enabled p) (slice_position p) (slice_normal p)
            (multiple_slices p) (num_slices p) sp)) o
  = key_of s o.
Proof. reflexivity. Qed.

(** C4 (failing input): after a load, single-slice mode, a first request
    caches the key built from the unsliced object's identity, then
    [apply_slicing] replaces [vtk_data] by the cutter output; the second,
    identical request builds a key from the new identity, misses and runs
    the slicing and packing again (it returns the same geometry). *)
Theorem C4_second_identical_request_recomputes :
  let s0 := demo_session (demo_params false 1) in
  let '(s1, r1) := extract_geometry_data demo_ops s0 in
  let '(s2, r2) := extract_geometry_data demo_ops s1 in
  r1 = r2 /\ recomputations s1 = 1%nat /\ recomputations s2 = 2%nat
  /\ params s2 = params s1.
Proof. vm_compute. repeat split. Qed.

(** C5 (failing input): multi-slice mode, three slices; with spacing 1
    no plane meets [demo_mesh] so [vtk_data] stays the original object and
    the cached key holds its identity; the next request, differing only in
    spacing 10, has the same key, is served from the cache without
    recomputation, and returns the unsliced geometry although spacing 10
    computed afresh yields a different one. *)
Theorem C5_spacing_change_served_stale :
  let s0 := demo_session (demo_params true 1) in
  let '(s1, r1) := extract_geometry_data demo_ops s0 in
  let '(s2, r2) := extract_geometry_data demo_ops (set_params s1 (demo_params true 10)) in
  r2 = r1 /\ recomputations s2 = recomputations s1
  /\ snd (extract_geometry_data demo_ops (set_params s0 (demo_params true 10))) <> r1.
Proof. vm_compute. split; [reflexivity|]. split; [reflexivity|]. discriminate. Qed.

(** C5 (counterexample): two requests differing only in [slice_spacing]
    (slicing on, several slices) have the same fingerprint. *)
Lemma C5_fingerprint_same_for_spacing :
  key_eqb demo_ops (key_of (demo_session (demo_params true 1)) (mkObj 0 demo_mesh))
                   (key_of (demo_session (demo_params true 10)) (mkObj 0 demo_mesh)) = true.
Proof. vm_compute. reflexivity. Qed.

(** * Further properties of the pipeline *)

(** ** Packing layout *)

Lemma extract_faces_length (polys : list (list nat)) :
  length (extract_faces polys)
  = (3 * list_sum (map (fun ids => if (3 <=? length ids)%nat then length ids - 2 else 0)%nat polys))%nat.
Proof.
  unfold extract_faces. induction polys as [|ids rest IH]; [reflexivity|].
  cbn [flat_map map]. change (list_sum (?a :: ?l)) with (a + list_sum l)%nat.
  rewrite length_app, fan_length, IH.
  destruct (3 <=? length ids)%nat; lia.
Qed.

(** The packer emits [k - 2] triangles for every polygon of [k >= 3]
    vertices (fan triangulation) and drops smaller cells; [face_count] is
    their total whenever some polygon yields a triangle. *)
Theorem pack_face_count lut op wf pd g :
  pack lut op wf pd = Some g ->
  extract_faces (pd_polys pd) <> [] ->
  face_count g
  = list_sum (map (fun ids => if (3 <=? length ids)%nat then length ids - 2 else 0)%nat
                  (pd_polys pd)).
Proof.
  unfold pack. intros Hp Hne.
  destruct (length (pd_points pd) =? 0)%nat; [discriminate|].
  injection Hp as <-. cbn [face_count].
  destruct (extract_faces (pd_polys pd)) as [|f fs] eqn:Ef; [congruence|].
  cbn [fallback_faces]. rewrite <- Ef.
  change (fst (Nat.divmod ?a 2 0 2)) with (a / 3)%nat.
  rewrite extract_faces_length, Nat.mul_comm, Nat.div_mul by lia. reflexivity.
Qed.

Lemma pack_face_count_witness :
  exists g, pack (fun _ => (0, 0, 0)%Q) 1 false
                 (mkPolyData [(0, 0, 0); (1, 0, 0); (1, 1, 0); (0, 1, 0)]%Q [[0; 1; 2; 3]]%nat None true)
               = Some g /\ face_count g = 2%nat.
Proof.
  eexists. split; [reflexivity|].
  apply (pack_face_count (fun _ => (0, 0, 0)%Q) 1 false
           (mkPolyData [(0, 0, 0); (1, 0, 0); (1, 1, 0); (0, 1, 0)]%Q [[0; 1; 2; 3]]%nat None true));
  [reflexivity | discriminate].
Defined.





Lemma flat_colors_nth (f : nat -> Q * Q * Q) (n i : nat) r gr b :
  (i < n)%nat -> f i = (r, gr, b) ->
  nth_error (flat_map (fun k => color_coords (f k)) (seq 0 n)) (3 * i) = Some r
  /\ nth_error (flat_map (fun k => color_coords (f k)) (seq 0 n)) (3 * i + 1) = Some gr
  /\ nth_error (flat_map (fun k => color_coords (f k)) (seq 0 n)) (3 * i + 2) = Some b.
Proof.
  intros Hi Hf.
  assert (Hg : forall st i, (i < n)%nat -> f (st + i)%nat = (r, gr, b) ->
    let l := flat_map (fun k => color_coords (f k)) (seq st n) in
    nth_error l (3 * i) = Some r /\ nth_error l (3 * i + 1) = Some gr
    /\ nth_error l (3 * i + 2) = Some b).
  { clear i Hi Hf. induction n as [|n IH]; intros st i Hi Hf; [lia|].
    destruct i as [|i].
    - simpl. rewrite Nat.add_0_r in Hf. rewrite Hf. repeat split.
    - replace (st + S i)%nat with (S st + i)%nat in Hf by lia.
      destruct (IH (S st) i ltac:(lia) Hf) as [H1 [H2 H3]].
      replace (3 * S i)%nat with (3 + 3 * i)%nat by lia.
      replace (3 + 3 * i + 1)%nat with (3 + (3 * i + 1))%nat by lia.
      replace (3 + 3 * i + 2)%nat with (3 + (3 * i + 2))%nat by lia.
      cbn [seq flat_map]. destruct (f st) as [[r0 g0] b0].
      cbn [color_coords app nth_error].
      repeat split; assumption. }
  apply (Hg 0%nat i Hi Hf).
Qed.

Lemma green_as_flat_map (n : nat) :
  concat (repeat [0%Q; 1%Q; 0%Q] n)
  = flat_map (fun _ : nat => color_coords (0%Q, 1%Q, 0%Q)) (seq 0 n).
Proof.
  assert (H : forall st, concat (repeat [0%Q; 1%Q; 0%Q] n)
    = flat_map (fun _ : nat => color_coords (0%Q, 1%Q, 0%Q)) (seq st n)).
  { induction n as [|n IH]; intro st; [reflexivity|].
    cbn [repeat concat seq flat_map]. rewrite (IH (S st)). reflexivity. }
  apply H.
Qed.

(** The flat [colors] array holds, at [3i..3i+2], the lookup-table colour
    of scalar [i] when the polydata has active point scalars, and green
    [(0, 1, 0)] for every vertex otherwise. *)
Theorem pack_colors_layout lut op wf pd g (i : nat) r gr b :
  pack lut op wf pd = Some g ->
  (i < vertex_count g)%nat ->
  match pd_scalars pd with
  | Some sc => lut (nth i sc 0%Q)
  | None => (0%Q, 1%Q, 0%Q)
  end = (r, gr, b) ->
  nth_error (colors g) (3 * i) = Some r
  /\ nth_error (colors g) (3 * i + 1) = Some gr
  /\ nth_error (colors g) (3 * i + 2) = Some b.
Proof.
  unfold pack. intros Hp Hi Hc.
  destruct (length (pd_points pd) =? 0)%nat; [discriminate|].
  injection Hp as <-. simpl in *. unfold extract_colors.
  destruct (pd_scalars pd) as [sc|].
  - apply (flat_colors_nth (fun k => lut (nth k sc 0%Q))); assumption.
  - rewrite green_as_flat_map.
    apply (flat_colors_nth (fun _ => (0%Q, 1%Q, 0%Q))); assumption.
Qed.

Lemma pack_colors_layout_witness :
  exists g, pack (fun _ => (0, 0, 0)%Q) 1 false tri_pd = Some g
    /\ nth_error (colors g) 6 = Some 0%Q /\ nth_error (colors g) 7 = Some 1%Q
    /\ nth_error (colors g) 8 = Some 0%Q.
Proof.
  eexists. split; [reflexivity|].
  apply (pack_colors_layout (fun _ => (0, 0, 0)%Q) 1 false tri_pd _ 2);
  first [reflexivity | cbn; lia].
Defined.

(** ** Multi-slice output and plane offsets *)

(** Every polygon of the polydata refers to one of its points. *)
Definition pd_wellformed (pd : PolyData) : Prop :=
  Forall (Forall (fun i => i < length (pd_points pd))%nat) (pd_polys pd).

Lemma append_polys_wellformed (ps : list PolyData) :
  Forall pd_wellformed ps -> pd_wellformed (append_polys ps).
Proof.
  unfold pd_wellformed. induction 1 as [|p rest Hp _ IH]; [constructor|].
  simpl. rewrite length_app. apply Forall_app. split.
  - eapply Forall_impl; [|exact Hp]. intros ids Hids.
    eapply Forall_impl; [|exact Hids]. simpl. intros. lia.
  - apply Forall_map. eapply Forall_impl; [|exact IH]. intros ids Hids.
    apply Forall_map. eapply Forall_impl; [|exact Hids]. simpl. intros. lia.
Qed.

(** In multi-slice mode, if every sub-slice the cutter returns is well
    formed, the dataset [apply_slicing] installs is either the original one
    or a polydata whose polygons all refer to its own points: appending
    the sub-slices shifts their point ids correctly. *)
Theorem multi_slice_wellformed ops s o o' :
  original_data s = Some o ->
  slicing_enabled (params s) = true ->
  multiple_slices (params s) = true ->
  Forall (fun i => pd_wellformed (cut ops (odata o) (multi_plane (params s) i)))
         (py_range (num_slices (params s))) ->
  vtk_data (apply_slicing ops s) = Some o' ->
  o' = o \/ exists pd, odata o' = DPoly pd /\ pd_wellformed pd.
Proof.
  intros Ho He Hm Hwf Hv. unfold apply_slicing in Hv.
  rewrite Ho, He, Hm in Hv. simpl negb in Hv. cbv iota in Hv.
  rewrite multi_slices_of_outputs in Hv.
  destruct (0 <? length (multi_outputs ops (params s) (odata o)))%nat.
  - simpl in Hv. injection Hv as <-. right. eexists. split; [reflexivity|].
    apply append_polys_wellformed. unfold multi_outputs.
    apply Forall_forall. intros pd Hpd. apply filter_In in Hpd as [Hpd _].
    apply in_map_iff in Hpd as [i [<- Hi]].
    rewrite Forall_forall in Hwf. apply Hwf. exact Hi.
  - simpl in Hv. injection Hv as <-. left. reflexivity.
Qed.

Lemma multi_slice_wellformed_witness :
  vtk_data (apply_slicing demo_ops (demo_session (demo_params true 10)))
  = Some (mkObj 2 (DPoly (append_polys [tri_pd])))
  /\ (mkObj 2 (DPoly (append_polys [tri_pd])) = mkObj 0 demo_mesh
      \/ exists pd, odata (mkObj 2 (DPoly (append_polys [tri_pd]))) = DPoly pd
                    /\ pd_wellformed pd).
Proof.
  split; [reflexivity|].
  apply (multi_slice_wellformed demo_ops (demo_session (demo_params true 10))
           (mkObj 0 demo_mesh)); try reflexivity.
  vm_compute. repeat constructor.
Defined.

(** The multiples of the spacing used by the multi-slice planes,
    [i - num_slices // 2] for [i in range(num_slices)]: for [N >= 0] there
    are [N] of them, exactly the integers from [-(N // 2)] to
    [N - 1 - N // 2] (symmetric around the position for odd [N], one more
    plane below it than above for even [N]); for [N <= 0] there is no
    plane. *)
Theorem multi_slice_offset_range (N x : Z) :
  (N <= 0 -> py_range N = [])
  /\ (0 <= N ->
      length (map (fun i => i - N / 2) (py_range N)) = Z.to_nat N
      /\ (In x (map (fun i => i - N / 2) (py_range N))
          <-> - (N / 2) <= x <= N - 1 - N / 2)).
Proof.
  split.
  - intro H. unfold py_range. replace (Z.to_nat N) with 0%nat by lia. reflexivity.
  - intro HN. unfold py_range. split.
    + rewrite !length_map, length_seq. reflexivity.
    + rewrite map_map. rewrite in_map_iff. split.
      * intros [k [Hk Hin]]. apply in_seq in Hin. lia.
      * intro Hx. exists (Z.to_nat (x + N / 2)). split; [lia|].
        apply in_seq. lia.
Qed.

Lemma multi_slice_offset_range_witness :
  In (-2) (map (fun i => i - 4 / 2) (py_range 4)) /\ ~ In 2 (map (fun i => i - 4 / 2) (py_range 4)).
Proof.
  split.
  - apply (proj2 (proj2 (proj2 (multi_slice_offset_range 4 (-2)) (ltac:(lia) : 0 <= 4)))).
    cbn. lia.
  - intro H.
    apply (proj1 (proj2 (proj2 (multi_slice_offset_range 4 2) (ltac:(lia) : 0 <= 4)))) in H.
    cbn in H. lia.
Defined.

Lemma substring_full (n : string) : substring 0 (String.length n) n = n.
Proof. induction n as [|c n IH]; [reflexivity|]. simpl. rewrite IH. reflexivity. Qed.

Lemma prefix_empty (n : string) : String.prefix "" n = true.
Proof. destruct n; reflexivity. Qed.

Lemma parse_point_prefix (n : string) : parse_selection ("Point: " ++ n) = PointSel n.
Proof.
  unfold parse_selection. cbn. rewrite prefix_empty, Nat.sub_0_r, substring_full.
  reflexivity.
Qed.

Lemma parse_cell_prefix (n : string) : parse_selection ("Cell: " ++ n) = CellSel n.
Proof.
  unfold parse_selection. cbn. rewrite prefix_empty, Nat.sub_0_r, substring_full.
  reflexivity.
Qed.

(** Round trip between [load_xdmf_file] and [apply_array_coloring]: every
    entry the load puts in [available_arrays] is read back by the colouring
    code as the kind and the (non-empty) name of an array the dataset
    has. *)
Theorem array_list_parse_roundtrip ops d a :
  In a (array_list ops d) ->
  (exists n, parse_selection a = PointSel n /\ n <> ""%string
             /\ In n (point_array_names ops d))
  \/ (exists n, parse_selection a = CellSel n /\ n <> ""%string
                /\ In n (cell_array_names ops d)).
Proof.
  unfold array_list. intro H. apply in_app_or in H as [H|H].
  - left. apply in_map_iff in H as [n [<- Hn]]. apply filter_In in Hn as [Hin Hne].
    exists n. split; [apply parse_point_prefix|]. split; [|exact Hin].
    unfold nonempty in Hne. intros ->. discriminate.
  - right. apply in_map_iff in H as [n [<- Hn]]. apply filter_In in Hn as [Hin Hne].
    exists n. split; [apply parse_cell_prefix|]. split; [|exact Hin].
    unfold nonempty in Hne. intros ->. discriminate.
Qed.

Lemma array_list_parse_roundtrip_witness :
  (exists n, parse_selection "Point: Density" = PointSel n /\ n <> ""%string
             /\ In n (point_array_names demo_ops demo_mesh))
  \/ (exists n, parse_selection "Point: Density" = CellSel n /\ n <> ""%string
                /\ In n (cell_array_names demo_ops demo_mesh)).
Proof.
  apply (array_list_parse_roundtrip demo_ops demo_mesh). left. reflexivity.
Defined.

(** A selection naming no array of the dataset (or not of the form
    ["Point: ..."] / ["Cell: ..."]) still becomes [current_array], while
    both dataset objects are left as they were (objects with the same id
    being the same object). *)
Theorem coloring_missing_array_sets_current ops s a o :
  a <> ""%string ->
  vtk_data s = Some o ->
  (forall o0, original_data s = Some o0 -> oid o0 = oid o -> o0 = o) ->
  match parse_selection a with
  | PointSel n => ~ In n (point_array_names ops (odata o))
  | CellSel n => ~ In n (cell_array_names ops (odata o))
  | OtherSel => True
  end ->
  let s' := apply_array_coloring ops (Some a) s in
  current_array s' = Some a /\ vtk_data s' = vtk_data s
  /\ original_data s' = original_data s.
Proof.
  intros Ha Hv Halias Hmiss. unfold apply_array_coloring. rewrite Hv.
  apply String.eqb_neq in Ha. rewrite Ha.
  assert (Hf : match parse_selection a with
               | PointSel n => existsb (String.eqb n) (point_array_names ops (odata o))
               | CellSel n => existsb (String.eqb n) (cell_array_names ops (odata o))
               | OtherSel => false
               end = false).
  { destruct (parse_selection a) as [n|n|]; [| |reflexivity];
      apply Bool.not_true_iff_false; intro Hx; apply existsb_exists in Hx as [m [Hm He]];
      apply String.eqb_eq in He; subst m; contradiction. }
  rewrite Hf. simpl. split; [reflexivity|]. split; [reflexivity|].
  destruct (original_data s) as [o0|]; [|reflexivity].
  destruct (Nat.eqb (oid o0) (oid o)) eqn:E; [|reflexivity].
  apply Nat.eqb_eq in E. rewrite (Halias o0 eq_refl E). reflexivity.
Qed.

Lemma coloring_missing_array_sets_current_witness :
  current_array (apply_array_coloring demo_ops (Some "Point: Missing"%string)
                   (demo_session (demo_params false 1))) = Some "Point: Missing"%string.
Proof.
  apply (coloring_missing_array_sets_current demo_ops (demo_session (demo_params false 1))
           "Point: Missing" (mkObj 0 demo_mesh)); [discriminate | reflexivity | |].
  { intros o0 H _. cbn in H. congruence. }
  cbn. intros [H|[]]. discriminate.
Defined.

(** ** The [update_vtk_geometry] parameters *)

Lemma Qdiv10_nonzero (q : Q) : ~ q == 0 -> ~ q / 10 == 0.
Proof.
  intros Hq H. apply Hq. destruct q as [n d].
  unfold Qeq, Qdiv, Qmult, Qinv in *. simpl in *. lia.
Qed.

(** A call triggered by a slicing control (not a dataset button) always
    leaves an axis as slice normal, a non-zero slice count and a non-zero
    spacing, whatever the widgets sent ([None] or 0 included); the
    opacity is the one sent, 1 when [None] (an opacity of 0 is kept). *)
Theorem update_params_control_sane t u p :
  button_dataset t = None ->
  let p' := update_params (Some t) u p in
  (slice_normal p' = (1, 0, 0)%Q \/ slice_normal p' = (0, 1, 0)%Q
   \/ slice_normal p' = (0, 0, 1)%Q)
  /\ num_slices p' <> 0
  /\ ~ slice_spacing p' == 0
  /\ current_opacity p' = match in_opacity u with Some q => q | None => 1%Q end.
Proof.
  intro Hb. unfold update_params. rewrite Hb. cbn -[Qdiv].
  split; [|split; [|split]].
  - unfold normal_of. destruct (in_normal u) as [n|]; [|auto].
    destruct (String.eqb n "x"); [auto|]. destruct (String.eqb n "y"); auto.
  - unfold z_or. destruct (in_num u) as [z|]; [|discriminate].
    destruct (Z.eqb z 0) eqn:E; [discriminate|]. apply Z.eqb_neq. exact E.
  - apply Qdiv10_nonzero. unfold q_or. destruct (in_spacing u) as [q|].
    + destruct (Qeq_bool q 0) eqn:E; [discriminate|]. apply Qeq_bool_neq. exact E.
    + discriminate.
  - reflexivity.
Qed.

Lemma update_params_control_sane_witness :
  num_slices (update_params (Some "num-slices"%string)
                (mkUiInputs None None None None None None None (Some 0) (Some 0%Q))
                (demo_params false 1)) <> 0.
Proof.
  apply (update_params_control_sane "num-slices"
           (mkUiInputs None None None None None None None (Some 0) (Some 0%Q))
           (demo_params false 1)).
  reflexivity.
Defined.

(** ** [load_large_dataset] *)

(** Case analysis on the converted output of [load_xdmf_file]: the
    composite output first, then the array list of any other one. *)
Ltac case_converted out' :=
  destruct out' as [?p|?g|?g|?g|?g]; cbv beta iota zeta;
  [ destruct (array_list _ (DPoly _)) as [|?a ?l] eqn:?Earr
  | destruct (array_list _ (DUGrid _)) as [|?a ?l] eqn:?Earr
  | destruct (array_list _ (DImage _)) as [|?a ?l] eqn:?Earr
  | destruct (array_list _ (DStructured _)) as [|?a ?l] eqn:?Earr
  | ].

Lemma load_xdmf_true_shape ops path s :
  snd (load_xdmf_file ops path s) = true ->
  let s1 := fst (load_xdmf_file ops path s) in
  params s1 = params s /\ uploaded_file_path s1 = Some path
  /\ (exists o, original_data s1 = Some o /\ oid o = next_oid s)
  /\ (exists o, vtk_data s1 = Some o /\ next_oid s <= oid o < next_oid s1)%nat
  /\ cache s1 = cache s /\ (next_oid s <= next_oid s1)%nat.
Proof.
  unfold load_xdmf_file.
  destruct (read_xdmf ops path) as [out|]; [|discriminate].
  destruct (GetNumberOfPoints out =? 0)%nat; [discriminate|].
  destruct (match out with DImage _ => image_to_pointset ops out | _ => Some out end)
    as [out'|]; [|discriminate].
  case_converted out'; [..|discriminate]; intros _; cbn;
    repeat split; try (eexists; split; [reflexivity|]); cbn; lia.
Qed.

(** [load_large_dataset] answering [True]: both files of the type exist,
    the XDMF file is the loaded path, the dataset is a new object, and
    slicing is on along [x] at position 0, with the session's
    multiple-slice settings kept. *)
Theorem load_large_dataset_success ops file_exists ty s :
  snd (load_large_dataset ops file_exists ty s) = true ->
  let s' := fst (load_large_dataset ops file_exists ty s) in
  (exists xdmf h5, dataset_files ty = Some (xdmf, h5) /\ file_exists xdmf = true
     /\ file_exists h5 = true /\ uploaded_file_path s' = Some xdmf)
  /\ (exists o, original_data s' = Some o /\ oid o = next_oid s)
  /\ slicing_enabled (params s') = true /\ slice_normal (params s') = (1, 0, 0)%Q
  /\ slice_position (params s') = 0%Q
  /\ multiple_slices (params s') = multiple_slices (params s)
  /\ num_slices (params s') = num_slices (params s)
  /\ slice_spacing (params s') = slice_spacing (params s).
Proof.
  unfold load_large_dataset.
  destruct (dataset_files ty) as [[xdmf h5]|]; [|discriminate].
  destruct (file_exists xdmf) eqn:E1; [|discriminate].
  destruct (file_exists h5) eqn:E2; [|discriminate]. cbn [andb].
  pose proof (load_xdmf_true_shape ops xdmf s) as Ht.
  destruct (load_xdmf_file ops xdmf s) as [s1 b]. destruct b; [|discriminate].
  intros _. destruct (Ht eq_refl) as [Hp [Hu [Ho _]]]. cbn in Hp, Hu, Ho |- *.
  rewrite Hp. split; [exists xdmf, h5; auto|]. split; [exact Ho|].
  repeat split.
Qed.

Lemma load_large_dataset_success_witness :
  slicing_enabled (params (fst (load_large_dataset image_ops (fun _ => true) "volume"
                                  (demo_session unsliced_params)))) = true.
Proof.
  apply (load_large_dataset_success image_ops (fun _ => true) "volume"
           (demo_session unsliced_params)).
  vm_compute. reflexivity.
Defined.

(** ** Extraction outcomes *)

Lemma apply_slicing_result ops s o :
  original_data s = Some o ->
  exists o1, vtk_data (apply_slicing ops s) = Some o1
             /\ (o1 = o \/ exists pd, odata o1 = DPoly pd).
Proof.
  intro Ho. unfold apply_slicing. rewrite Ho.
  destruct (negb (slicing_enabled (params s))).
  { exists o. auto. }
  destruct (multiple_slices (params s)).
  - destruct (multi_slices_of ops (params s) (odata o)) as [inputs added].
    destruct (0 <? added)%nat; cbn; eexists; (split; [reflexivity|]).
    + right. eexists. reflexivity.
    + left. reflexivity.
  - destruct (0 <? length (pd_points (cut ops (odata o) (single_plane (params s) (odata o)))))%nat;
      cbn; eexists; (split; [reflexivity|]).
    + right. eexists. reflexivity.
    + left. reflexivity.
Qed.

Lemma apply_slicing_keeps ops s :
  original_data (apply_slicing ops s) = original_data s
  /\ uploaded_file_path (apply_slicing ops s) = uploaded_file_path s
  /\ current_array (apply_slicing ops s) = current_array s
  /\ params (apply_slicing ops s) = params s
  /\ cache (apply_slicing ops s) = cache s.
Proof.
  unfold apply_slicing. destruct (original_data s) as [o|] eqn:Ho;
    [|cbn; rewrite Ho; repeat split].
  destruct (negb (slicing_enabled (params s))); [cbn; rewrite Ho; repeat split|].
  destruct (multiple_slices (params s)).
  - destruct (multi_slices_of ops (params s) (odata o)) as [inputs added].
    destruct (0 <? added)%nat; cbn; rewrite Ho; repeat split.
  - destruct (0 <? length (pd_points (cut ops (odata o) (single_plane (params s) (odata o)))))%nat;
      cbn; rewrite Ho; repeat split.
Qed.

Lemma extract_miss_vtk ops s k :
  vtk_data (fst (extract_miss ops s k)) = vtk_data (apply_slicing ops (bump_recomputations s)).
Proof.
  unfold extract_miss.
  destruct (vtk_data (apply_slicing ops (bump_recomputations s))) as [o1|] eqn:E;
    [|exact E].
  destruct (to_polydata ops (apply_slicing ops (bump_recomputations s)) (odata o1))
    as [pd|]; [|exact E].
  destruct (negb (pd_points_obj pd)); [exact E|].
  destruct (pack _ _ _ _); exact E.
Qed.

Lemma key_eqb_refl ops k : key_eqb ops k k = true.
Proof. unfold key_eqb. apply Z.eqb_refl. Qed.

(** Loading an XDMF file whose reader output is image data (converted by
    [vtkImageDataToPointSet] to a structured grid) succeeds, but the next
    extraction with slicing off raises: the structured grid reaches the
    polydata branch, which calls [GetPolys] on it. The only other outcome
    is a cache hit, when the new fingerprint hashes like the cached one:
    the previously cached geometry is returned, never one computed from
    the grid. *)
Theorem load_image_then_unsliced_raises ops path s g g' :
  read_xdmf ops path = Some (DImage g) ->
  g_points g <> [] ->
  image_to_pointset ops (DImage g) = Some (DStructured g') ->
  (forall h a, exists h', set_active_scalars ops (DStructured h) a = DStructured h') ->
  path <> ""%string ->
  slicing_enabled (params s) = false ->
  let s1 := fst (load_xdmf_file ops path s) in
  snd (load_xdmf_file ops path s) = true
  /\ (snd (extract_geometry_data ops s1) = Raised
      \/ exists k g0, cache s = Some (k, g0)
                      /\ extract_geometry_data ops s1 = (s1, Returned (Some g0))).
Proof.
  intros Hr Hg Hc Hset Hp Hen s1.
  assert (Hok : snd (load_xdmf_file ops path s) = true).
  { unfold load_xdmf_file. rewrite Hr.
    destruct (GetNumberOfPoints (DImage g) =? 0)%nat eqn:E.
    { exfalso. apply Hg, length_zero_iff_nil, Nat.eqb_eq, E. }
    rewrite Hc. cbv beta iota zeta.
    destruct (array_list ops (DStructured g')); reflexivity. }
  split; [exact Hok|].
  (* the original object is a structured grid *)
  assert (Hs1 : exists o h, original_data s1 = Some o /\ odata o = DStructured h
                /\ uploaded_file_path s1 = Some path /\ params s1 = params s
                /\ cache s1 = cache s /\ exists v, vtk_data s1 = Some v).
  { subst s1. unfold load_xdmf_file. rewrite Hr.
    destruct (GetNumberOfPoints (DImage g) =? 0)%nat eqn:E.
    { exfalso. apply Hg, length_zero_iff_nil, Nat.eqb_eq, E. }
    rewrite Hc. cbv beta iota zeta.
    destruct (array_list ops (DStructured g')) as [|a l].
    - cbn. do 2 eexists. split; [reflexivity|]. split; [reflexivity|].
      repeat split. eexists. reflexivity.
    - destruct (Hset g' a) as [h' Hh]. cbn. do 2 eexists.
      split; [reflexivity|]. split; [exact Hh|].
      repeat split. eexists. reflexivity. }
  destruct Hs1 as [o [h [Ho [Hd [Hu [Hpar [Hca [v Hv]]]]]]]].
  assert (Hmiss : forall k, snd (extract_miss ops s1 k) = Raised).
  { intro k. unfold extract_miss.
    assert (Hsl : vtk_data (apply_slicing ops (bump_recomputations s1)) = Some o).
    { unfold apply_slicing. cbn [original_data bump_recomputations params].
      rewrite Ho, Hpar, Hen. reflexivity. }
    rewrite Hsl. unfold to_polydata. rewrite Hd.
    destruct (apply_slicing_keeps ops (bump_recomputations s1)) as [_ [Hup _]].
    rewrite Hup. cbn [uploaded_file_path bump_recomputations]. rewrite Hu.
    unfold path_falsy. apply String.eqb_neq in Hp. rewrite Hp. reflexivity. }
  unfold extract_geometry_data. rewrite Hv.
  destruct (cache s1) as [[k' g0]|] eqn:Ec; [|left; apply Hmiss].
  destruct (key_eqb ops k' (key_of s1 v)).
  - right. exists k', g0. split; [exact (eq_sym Hca) | reflexivity].
  - left. apply Hmiss.
Qed.

Lemma load_image_then_unsliced_raises_witness :
  snd (extract_geometry_data image_ops
         (fst (load_xdmf_file image_ops "large_volume.xdmf" (demo_session unsliced_params))))
  = Raised.
Proof.
  destruct (load_image_then_unsliced_raises image_ops "large_volume.xdmf"
              (demo_session unsliced_params) vol_grid vol_grid)
    as [_ [H | [k [g0 [Hc _]]]]].
  - reflexivity.
  - discriminate.
  - reflexivity.
  - intros h a. exists h. reflexivity.
  - discriminate.
  - reflexivity.
  - exact H.
  - discriminate Hc.
Defined.

(** ** Cache hits and the regenerated sphere *)

Lemma unsliced_miss ops s o k s1 g :
  slicing_enabled (params s) = false -> original_data s = Some o ->
  extract_miss ops s k = (s1, Returned (Some g)) ->
  vtk_data s1 = Some o /\ cache s1 = Some (k, g) /\ params s1 = params s
  /\ current_array s1 = current_array s.
Proof.
  intros Hen Ho H. unfold extract_miss in H.
  assert (Hsl : apply_slicing ops (bump_recomputations s)
                = set_vtk_data (bump_recomputations s) (Some o) (next_oid s)).
  { unfold apply_slicing. cbn [original_data bump_recomputations params].
    rewrite Ho, Hen. reflexivity. }
  rewrite Hsl in H. cbn [vtk_data set_vtk_data] in H.
  destruct (to_polydata _ _ _) as [pd|]; [|discriminate].
  destruct (negb (pd_points_obj pd)); [discriminate|].
  destruct (pack _ _ _ _) as [g'|]; [|discriminate].
  injection H as <- <-. repeat split.
Qed.

(** With slicing off and [vtk_data] the very object held as
    [original_data], a request answered with geometry, repeated on the
    resulting state, is served from the cache: same state, same record, no
    recomputation. Both preconditions matter: with slicing on the dataset
    object is replaced at every miss (see C4), and after a load that found
    no named array [vtk_data] is the elevation output, which the first miss
    replaces by the original object. *)
Theorem extract_unsliced_repeat_hits ops s o s1 g :
  slicing_enabled (params s) = false ->
  vtk_data s = Some o -> original_data s = Some o ->
  extract_geometry_data ops s = (s1, Returned (Some g)) ->
  extract_geometry_data ops s1 = (s1, Returned (Some g)).
Proof.
  intros Hen Hv Ho H. unfold extract_geometry_data in H. rewrite Hv in H.
  assert (Hm : extract_miss ops s (key_of s o) = (s1, Returned (Some g)) ->
               extract_geometry_data ops s1 = (s1, Returned (Some g))).
  { intro Hx. destruct (unsliced_miss ops s o _ s1 g Hen Ho Hx) as [Hv1 [Hc1 [Hp1 Ha1]]].
    unfold extract_geometry_data. rewrite Hv1, Hc1.
    replace (key_of s1 o) with (key_of s o)
      by (unfold key_of; rewrite Hp1, Ha1; reflexivity).
    rewrite key_eqb_refl. reflexivity. }
  destruct (cache s) as [[k' g']|] eqn:Ec; [|apply Hm; exact H].
  destruct (key_eqb ops k' (key_of s o)) eqn:Ek; [|apply Hm; exact H].
  injection H as <- <-. unfold extract_geometry_data. rewrite Hv, Ec, Ek. reflexivity.
Qed.

Lemma extract_unsliced_repeat_hits_witness :
  exists s1 g,
    extract_geometry_data demo_ops (demo_session unsliced_params) = (s1, Returned (Some g))
    /\ extract_geometry_data demo_ops s1 = (s1, Returned (Some g)).
Proof.
  eexists. eexists. split.
  - vm_compute. reflexivity.
  - apply (extract_unsliced_repeat_hits demo_ops (demo_session unsliced_params)
             (mkObj 0 demo_mesh)); vm_compute; reflexivity.
Defined.

(** [regenerate_vtk_pipeline] replaces [vtk_data] by a new sphere but keeps
    [original_data]: with slicing off, the next extraction resets
    [vtk_data] to the original dataset, so the sphere is never shown; the
    only other outcome is a cache hit (the sphere's fingerprint hashing like
    the cached one), which returns the previously cached geometry. *)
Theorem regenerate_discarded_unsliced ops sphere_source resolution s o :
  slicing_enabled (params s) = false ->
  original_data s = Some o ->
  let r := regenerate_vtk_pipeline sphere_source resolution s in
  vtk_data (fst (extract_geometry_data ops r)) = Some o
  \/ exists k g, cache s = Some (k, g) /\ extract_geometry_data ops r = (r, Returned (Some g)).
Proof.
  intros Hen Ho r.
  assert (Hmiss : forall k, vtk_data (fst (extract_miss ops r k)) = Some o).
  { intro k. rewrite extract_miss_vtk. unfold apply_slicing.
    cbn [original_data bump_recomputations params r regenerate_vtk_pipeline set_vtk_data].
    rewrite Ho, Hen. reflexivity. }
  unfold extract_geometry_data.
  change (vtk_data r) with (Some (mkObj (next_oid s) (sphere_source resolution))).
  change (cache r) with (cache s).
  destruct (cache s) as [[k' g]|] eqn:Ec; [|left; apply Hmiss].
  destruct (key_eqb ops k' (key_of r (mkObj (next_oid s) (sphere_source resolution)))).
  - right. exists k', g. split; reflexivity.
  - left. apply Hmiss.
Qed.

Lemma regenerate_discarded_unsliced_witness :
  vtk_data (fst (extract_geometry_data demo_ops
                   (regenerate_vtk_pipeline (fun _ => DPoly tri_pd) 20
                      (demo_session unsliced_params)))) = Some (mkObj 0 demo_mesh).
Proof.
  destruct (regenerate_discarded_unsliced demo_ops (fun _ => DPoly tri_pd) 20
              (demo_session unsliced_params) (mkObj 0 demo_mesh) eq_refl eq_refl)
    as [H | [k [g [Hc _]]]].
  - exact H.
  - discriminate Hc.
Defined.

(** ** Synthetic meshes *)

Lemma length_flat_map_in {A B} (f : A -> list B) (l : list A) (n : nat) :
  (forall x, In x l -> length (f x) = n) -> length (flat_map f l) = (n * length l)%nat.
Proof.
  induction l as [|x l IH]; intro H; [simpl; lia|].
  cbn [flat_map]. rewrite length_app, H by (left; reflexivity).
  rewrite IH by (intros y Hy; apply H; right; exact Hy). simpl. lia.
Qed.

Lemma succ_mod_cases (i n : nat) :
  (i < n)%nat -> ((i + 1) mod n = i + 1 /\ i + 1 < n \/ (i + 1) mod n = 0 /\ i + 1 = n)%nat.
Proof.
  intro H. destruct (Nat.eq_dec (i + 1) n) as [E|E].
  - right. split; [|exact E]. rewrite E. apply Nat.Div0.mod_same.
  - left. split; [apply Nat.mod_small|]; lia.
Qed.

(** The cylinder of [create_complex_mesh_xdmf], for any [n_theta] and
    [n_z]: [2 * n_theta * (n_z - 1)] triangles, each with three vertex
    indices below the vertex count [n_theta * n_z]; with at least two points
    around no triangle repeats a vertex (with one, [(i + 1) % 1 = i] makes
    every triangle degenerate). *)
Theorem cylinder_connectivity_shape n_theta n_z :
  length (cylinder_connectivity n_theta n_z) = (2 * n_theta * (n_z - 1))%nat
  /\ (forall t, In t (cylinder_connectivity n_theta n_z) ->
        length t = 3%nat /\ Forall (fun v => v < n_theta * n_z)%nat t
        /\ ((2 <= n_theta)%nat -> NoDup t)).
Proof.
  split.
  - unfold cylinder_connectivity.
    rewrite (length_flat_map_in _ _ (2 * n_theta)).
    + rewrite length_seq. lia.
    + intros k _. rewrite (length_flat_map_in _ _ 2); [rewrite length_seq; lia|].
      intros; reflexivity.
  - intros t Ht. unfold cylinder_connectivity in Ht.
    apply in_flat_map in Ht as [k [Hk Ht]]. apply in_flat_map in Ht as [i [Hi Ht]].
    apply in_seq in Hk, Hi.
    assert (Hm : ((i + 1) mod n_theta < n_theta)%nat) by (apply Nat.mod_upper_bound; lia).
    assert (Hkz : (k * n_theta + n_theta + n_theta <= n_theta * n_z)%nat) by nia.
    pose proof (succ_mod_cases i n_theta ltac:(lia)) as Hc.
    rewrite Nat.mul_add_distr_r, Nat.mul_1_l in Ht.
    destruct Ht as [<- | [<- | []]]; (split; [reflexivity|]); split;
      try (repeat constructor; lia).
    + intro H2. repeat constructor; simpl; intros Hx; repeat destruct Hx as [Hx|Hx]; lia.
    + intro H2. repeat constructor; simpl; intros Hx; repeat destruct Hx as [Hx|Hx]; lia.
Qed.

Lemma cylinder_connectivity_shape_witness :
  NoDup [0; 1; 9]%nat /\ Forall (fun v => v < 8 * 3)%nat [0; 1; 9]%nat.
Proof.
  destruct (proj2 (cylinder_connectivity_shape 8 3) [0; 1; 9]%nat) as [_ [Hb Hn]].
  - vm_compute. left. reflexivity.
  - split; [apply Hn; lia | exact Hb].
Defined.

Lemma zlist_max_lt (x : Z) (r : list Z) (n : Z) :
  Forall (fun y => y < n) (x :: r) -> zlist_max (x :: r) < n.
Proof.
  simpl. revert x. induction r as [|y r IH]; intros x H; simpl.
  - inversion H. assumption.
  - inversion H as [|? ? Hx Hr]. inversion Hr as [|? ? Hy Hr'].
    apply IH. constructor; [lia | exact Hr'].
Qed.

Lemma py_range_step_in start stop step x :
  0 < step -> In x (py_range_step start stop step) -> start <= x < stop.
Proof.
  intros Hs H. unfold py_range_step in H. apply in_map_iff in H as [m [<- Hm]].
  apply in_seq in Hm.
  destruct (stop <=? start) eqn:E; [simpl in Hm; lia|]. apply Z.leb_gt in E.
  assert (Hc : Z.of_nat m + 1 <= (stop - start + step - 1) / step).
  { assert (0 <= (stop - start + step - 1) / step) by (apply Z.div_pos; lia). lia. }
  pose proof (Z.mul_div_le (stop - start + step - 1) step Hs). nia.
Qed.

Lemma py_range_step_length start stop step :
  length (py_range_step start stop step)
  = Z.to_nat (if stop <=? start then 0 else (stop - start + step - 1) / step).
Proof. unfold py_range_step. rewrite length_map, length_seq. reflexivity. Qed.

(** Number of hexahedra along one axis of [n] points: [(n - 1) // stride]. *)
Lemma axis_count n s :
  1 <= n -> 1 <= s ->
  Z.of_nat (length (py_range_step 0 (n - s) s)) = (n - 1) / s.
Proof.
  intros Hn Hs. rewrite py_range_step_length.
  destruct (n - s <=? 0) eqn:E.
  - apply Z.leb_le in E. simpl. symmetry. apply Z.div_small. lia.
  - replace (n - s - 0 + s - 1) with (n - 1) by lia.
    rewrite Z2Nat.id; [reflexivity|]. apply Z.div_pos; lia.
Qed.

Lemma hex_corners_bound nx ny nz s i j k :
  0 <= s -> 0 <= i -> 0 <= j -> 0 <= k ->
  i + s < nx -> j + s < ny -> k + s < nz ->
  zlist_max (hex_corners nx ny s i j k) < nx * ny * nz.
Proof.
  intros. unfold hex_corners. apply zlist_max_lt.
  assert (Hxy : (k + s) * nx * ny + (j + s) * nx + (i + s) < nx * ny * nz).
  { assert ((k + s) * (nx * ny) <= (nz - 1) * (nx * ny)) by (apply Z.mul_le_mono_nonneg_r; nia).
    assert ((j + s) * nx <= (ny - 1) * nx) by (apply Z.mul_le_mono_nonneg_r; lia).
    nia. }
  assert (Hp1 : 0 <= s * (nx * ny)) by (apply Z.mul_nonneg_nonneg; nia).
  assert (Hp2 : 0 <= s * nx) by nia.
  repeat (apply Forall_cons; [lia|]). apply Forall_nil.
Qed.

Lemma decimation_stride_pos nx ny nz : 1 <= decimation_stride nx ny nz.
Proof. unfold decimation_stride. lia. Qed.

(** The decimated hexahedra of [create_large_volume_dataset] for any
    volume of [nx * ny * nz] points ([nx, ny, nz >= 1]): the bounds guard
    never drops a cell, so their number is the product of
    [(n - 1) // stride] over the three axes; there is none exactly when
    some axis has a single point. *)
Theorem connectivity_count nx ny nz :
  1 <= nx -> 1 <= ny -> 1 <= nz ->
  let s := decimation_stride nx ny nz in
  Z.of_nat (length (connectivity nx ny nz)) = ((nz - 1) / s) * ((ny - 1) / s) * ((nx - 1) / s)
  /\ (connectivity nx ny nz <> [] <-> 2 <= nx /\ 2 <= ny /\ 2 <= nz).
Proof.
  intros Hx Hy Hz s. pose proof (decimation_stride_pos nx ny nz) as Hs. fold s in Hs.
  assert (Hlen : length (connectivity nx ny nz)
                 = (length (py_range_step 0 (nz - s) s) * (length (py_range_step 0 (ny - s) s)
                    * length (py_range_step 0 (nx - s) s)))%nat).
  { unfold connectivity. fold s.
    rewrite (length_flat_map_in _ _ (length (py_range_step 0 (ny - s) s)
                                     * length (py_range_step 0 (nx - s) s))); [lia|].
    intros k Hk. apply py_range_step_in in Hk; [|lia].
    rewrite (length_flat_map_in _ _ (length (py_range_step 0 (nx - s) s))); [lia|].
    intros j Hj. apply py_range_step_in in Hj; [|lia].
    rewrite (length_flat_map_in _ _ 1); [lia|].
    intros i Hi. apply py_range_step_in in Hi; [|lia].
    rewrite (proj2 (Z.ltb_lt _ _)); [reflexivity|].
    apply hex_corners_bound; lia. }
  assert (Hcount : Z.of_nat (length (connectivity nx ny nz))
                   = ((nz - 1) / s) * ((ny - 1) / s) * ((nx - 1) / s)).
  { rewrite Hlen, !Nat2Z.inj_mul, !axis_count by lia. ring. }
  split; [exact Hcount|].
  assert (Hq : forall n, 1 <= n -> (1 <= (n - 1) / s <-> s <= n - 1)).
  { intros n Hn. split; intro H.
    - destruct (Z.le_gt_cases s (n - 1)) as [?|Hlt]; [assumption|].
      rewrite Z.div_small in H; lia.
    - apply (Z.div_le_mono s (n - 1) s) in H; [|lia]. rewrite Z.div_same in H; lia. }
  assert (Hst : s <= nx - 1 /\ s <= ny - 1 /\ s <= nz - 1
                <-> 2 <= nx /\ 2 <= ny /\ 2 <= nz).
  { subst s. unfold decimation_stride. split; [lia|].
    intros [H2x [H2y H2z]].
    set (m := Z.min nx (Z.min ny nz)).
    assert (Hm : 2 <= m /\ m <= nx /\ m <= ny /\ m <= nz) by (subst m; lia).
    assert (Hd : m / 20 < m) by (apply Z.div_lt; lia).
    lia. }
  rewrite <- Hst, <- (Hq nx Hx), <- (Hq ny Hy), <- (Hq nz Hz).
  assert (0 <= (nx - 1) / s) by (apply Z.div_pos; lia).
  assert (0 <= (ny - 1) / s) by (apply Z.div_pos; lia).
  assert (0 <= (nz - 1) / s) by (apply Z.div_pos; lia).
  split.
  - intro Hne. destruct (connectivity nx ny nz) as [|c l] eqn:Ec; [contradiction|].
    simpl in Hcount.
    destruct (Z.eq_dec ((nx - 1) / s) 0) as [E|E]; [rewrite E in Hcount; lia|].
    destruct (Z.eq_dec ((ny - 1) / s) 0) as [E'|E']; [rewrite E' in Hcount; lia|].
    destruct (Z.eq_dec ((nz - 1) / s) 0) as [E''|E'']; [rewrite E'' in Hcount; lia|].
    lia.
  - intros [Ha [Hb Hc]] Hnil. rewrite Hnil in Hcount. simpl in Hcount.
    assert (0 < (nz - 1) / s * ((ny - 1) / s)) by (apply Z.mul_pos_pos; lia).
    assert (0 < (nz - 1) / s * ((ny - 1) / s) * ((nx - 1) / s)) by (apply Z.mul_pos_pos; lia).
    lia.
Qed.

Lemma connectivity_count_witness :
  Z.of_nat (length (connectivity 3 4 1)) = 0.
Proof.
  destruct (connectivity_count 3 4 1 ltac:(lia) ltac:(lia) ltac:(lia)) as [H _].
  rewrite H. reflexivity.
Defined.

(** ** The array dropdown and the colour bar *)

Lemma load_xdmf_arrays ops path s :
  snd (load_xdmf_file ops path s) = true ->
  let s1 := fst (load_xdmf_file ops path s) in
  (exists d, available_arrays s1 = array_list ops d /\ available_arrays s1 <> []
             /\ current_array s1 = hd_error (available_arrays s1))
  \/ (available_arrays s1 = [] /\ current_array s1 = Some "Elevation"%string).
Proof.
  unfold load_xdmf_file.
  destruct (read_xdmf ops path) as [out|]; [|discriminate].
  destruct (GetNumberOfPoints out =? 0)%nat; [discriminate|].
  destruct (match out with DImage _ => image_to_pointset ops out | _ => Some out end)
    as [out'|]; [|discriminate].
  case_converted out'; [..|discriminate]; intros _; cbn;
    first [ right; split; reflexivity
          | left; eexists; split; [symmetry; eassumption|];
            split; [discriminate | reflexivity] ].
Qed.

Lemma load_large_dataset_arrays ops file_exists ty s :
  snd (load_large_dataset ops file_exists ty s) = true ->
  exists path,
    snd (load_xdmf_file ops path s) = true
    /\ available_arrays (fst (load_large_dataset ops file_exists ty s))
       = available_arrays (fst (load_xdmf_file ops path s))
    /\ current_array (fst (load_large_dataset ops file_exists ty s))
       = current_array (fst (load_xdmf_file ops path s)).
Proof.
  unfold load_large_dataset. intro H.
  destruct (dataset_files ty) as [[xdmf h5]|]; [|discriminate].
  destruct (file_exists xdmf && file_exists h5); [|discriminate].
  exists xdmf. destruct (load_xdmf_file ops xdmf s) as [s1 b].
  destruct b; [|discriminate]. repeat split.
Qed.

(** The dropdown outputs of [load_example_files]: the value is [None], one
    of the options, or — after a load that found no named array — the
    string ["Elevation"] with no option at all. *)
Theorem load_example_files_dropdown ops file_exists trig c1 c2 c3 s :
  let '(_, (options, value)) := load_example_files ops file_exists trig c1 c2 c3 s in
  value = None
  \/ (exists a, value = Some a /\ In a options)
  \/ (value = Some "Elevation"%string /\ options = []).
Proof.
  unfold load_example_files. destruct trig as [b|]; [|left; reflexivity].
  destruct (example_dataset b) as [ty|]; [|left; reflexivity].
  destruct (clicks_truthy _); [|left; reflexivity].
  pose proof (load_large_dataset_arrays ops file_exists ty s) as Ha.
  destruct (load_large_dataset ops file_exists ty s) as [s1 ok].
  destruct ok; [|left; reflexivity].
  destruct (Ha eq_refl) as [path [Hok [Hav Hcur]]]. cbn in Hav, Hcur.
  rewrite Hav, Hcur.
  destruct (load_xdmf_arrays ops path s Hok) as [[d [_ [Hne Hhd]]] | [He Hel]].
  - right. left. rewrite Hhd.
    destruct (available_arrays (fst (load_xdmf_file ops path s))) as [|a l];
      [contradiction|]. exists a. split; [reflexivity | left; reflexivity].
  - right. right. split; assumption.
Qed.

Example load_example_files_elevation :
  let ops := mkVtkOps demo_cut (fun _ => empty_pd) (fun _ => empty_pd) (fun d => d)
               (fun _ => (0, 0, 1)%Q)
               (fun _ => Some (DPoly tri_pd)) (fun d => Some d) (fun _ => []) (fun _ => [])
               (fun d _ => d) demo_str_hash none_hash_312 in
  snd (load_example_files ops (fun _ => true) (Some "load-large-volume-btn"%string)
         (Some 1%nat) None None (demo_session unsliced_params))
  = ([], Some "Elevation"%string).
Proof. reflexivity. Qed.

Lemma array_list_entry ops d a :
  In a (array_list ops d) ->
  exists n, n <> ""%string
    /\ ((a = ("Point: " ++ n)%string /\ In n (point_array_names ops d))
        \/ (a = ("Cell: " ++ n)%string /\ In n (cell_array_names ops d))).
Proof.
  unfold array_list. intro H. apply in_app_or in H as [H|H];
    apply in_map_iff in H as [n [<- Hn]]; apply filter_In in Hn as [Hin Hne];
    exists n; (split; [unfold nonempty in Hne; intros ->; discriminate|]); auto.
Qed.

(** After a successful [load_xdmf_file], the colour bar titled from the
    selected array shows the bare name of a point or cell array of the
    loaded dataset (the prefix of the right length is stripped), or
    ["Elevation"] when the file had no named array. *)
Theorem colorbar_title_after_load ops path s :
  snd (load_xdmf_file ops path s) = true ->
  let s1 := fst (load_xdmf_file ops path s) in
  let t := colorbar_title (current_array s1) (has_vtk_data s1) in
  (available_arrays s1 = [] /\ t = "Elevation"%string)
  \/ (t <> ""%string /\ exists a, current_array s1 = Some a /\ In a (available_arrays s1)
        /\ (a = ("Point: " ++ t)%string \/ a = ("Cell: " ++ t)%string)).
Proof.
  intros Hok s1 t.
  destruct (load_xdmf_true_shape ops path s Hok) as [_ [_ [_ [[v [Hv _]] _]]]].
  fold s1 in Hv.
  assert (Ht : forall a, current_array s1 = Some a -> a <> ""%string ->
                 t = match parse_selection a with
                     | PointSel n | CellSel n => n
                     | OtherSel => a
                     end).
  { intros a Ha Hne. subst t. unfold has_vtk_data. rewrite Ha, Hv. unfold colorbar_title, nonempty.
    apply String.eqb_neq in Hne. rewrite Hne. reflexivity. }
  destruct (load_xdmf_arrays ops path s Hok) as [[d [Had [Hne Hhd]]] | [He Hel]].
  - right. fold s1 in Had, Hne, Hhd.
    destruct (available_arrays s1) as [|a l] eqn:Eav; [contradiction|].
    assert (Hin : In a (array_list ops d)) by (rewrite <- Had; left; reflexivity).
    destruct (array_list_entry ops d a Hin) as [n [Hn [[Ha _] | [Ha _]]]];
      subst a; rewrite (Ht _ Hhd) by (destruct n; discriminate).
    + rewrite parse_point_prefix. split; [exact Hn|].
      exists ("Point: " ++ n)%string. split; [exact Hhd|]. split; [left; reflexivity|].
      left. reflexivity.
    + rewrite parse_cell_prefix. split; [exact Hn|].
      exists ("Cell: " ++ n)%string. split; [exact Hhd|]. split; [left; reflexivity|].
      right. reflexivity.
  - left. fold s1 in He, Hel. split; [exact He|].
    rewrite (Ht _ Hel) by discriminate. reflexivity.
Qed.

Lemma colorbar_title_after_load_witness :
  colorbar_title (current_array (fst (load_xdmf_file image_ops "large_volume.xdmf"
                                        (demo_session unsliced_params))))
    true = "RandomField"%string.
Proof.
  destruct (colorbar_title_after_load image_ops "large_volume.xdmf"
              (demo_session unsliced_params) eq_refl) as [[H _] | [_ [a [Ha _]]]].
  - discriminate H.
  - reflexivity.
Defined.

(** ** The [update_vtk_geometry] callback *)

Lemma load_xdmf_ok_indep ops path s s' :
  snd (load_xdmf_file ops path s) = snd (load_xdmf_file ops path s').
Proof.
  unfold load_xdmf_file.
  destruct (read_xdmf ops path) as [out|]; [|reflexivity].
  destruct (GetNumberOfPoints out =? 0)%nat; [reflexivity|].
  destruct (match out with DImage _ => image_to_pointset ops out | _ => Some out end)
    as [out'|]; [|reflexivity].
  case_converted out'; reflexivity.
Qed.

Lemma load_large_dataset_ok_indep ops file_exists ty s s' :
  snd (load_large_dataset ops file_exists ty s) = snd (load_large_dataset ops file_exists ty s').
Proof.
  unfold load_large_dataset.
  destruct (dataset_files ty) as [[xdmf h5]|]; [|reflexivity].
  destruct (file_exists xdmf && file_exists h5); [|reflexivity].
  pose proof (load_xdmf_ok_indep ops xdmf s s') as H.
  destruct (load_xdmf_file ops xdmf s) as [s1 b], (load_xdmf_file ops xdmf s') as [s1' b'].
  cbn in H. subst b'. destruct b; reflexivity.
Qed.

Lemma load_large_dataset_shape ops file_exists ty s :
  snd (load_large_dataset ops file_exists ty s) = true ->
  let s1 := fst (load_large_dataset ops file_exists ty s) in
  slicing_enabled (params s1) = true /\ slice_normal (params s1) = (1, 0, 0)%Q
  /\ slice_position (params s1) = 0%Q /\ cache s1 = cache s
  /\ recomputations s1 = recomputations s
  /\ exists v, vtk_data s1 = Some v /\ (next_oid s <= oid v)%nat.
Proof.
  unfold load_large_dataset. intro H.
  destruct (dataset_files ty) as [[xdmf h5]|]; [|discriminate].
  destruct (file_exists xdmf && file_exists h5); [|discriminate].
  pose proof (load_xdmf_true_shape ops xdmf s) as Ht.
  assert (Hr : recomputations (fst (load_xdmf_file ops xdmf s)) = recomputations s).
  { unfold load_xdmf_file.
    destruct (read_xdmf ops xdmf) as [out|]; [|reflexivity].
    destruct (GetNumberOfPoints out =? 0)%nat; [reflexivity|].
    destruct (match out with DImage _ => image_to_pointset ops out | _ => Some out end)
      as [out'|]; [|reflexivity].
    case_converted out'; reflexivity. }
  destruct (load_xdmf_file ops xdmf s) as [s1 b]. destruct b; [|discriminate].
  destruct (Ht eq_refl) as [_ [_ [_ [[v [Hv Hid]] [Hc _]]]]]. cbn in *.
  split; [reflexivity|]. split; [reflexivity|]. split; [reflexivity|].
  split; [exact Hc|]. split; [exact Hr|].
  exists v. split; [exact Hv | lia].
Qed.

Lemma coloring_keeps ops sel s :
  cache (apply_array_coloring ops sel s) = cache s
  /\ next_oid (apply_array_coloring ops sel s) = next_oid s
  /\ recomputations (apply_array_coloring ops sel s) = recomputations s.
Proof.
  unfold apply_array_coloring.
  destruct sel as [a|]; [|repeat split]. destruct (vtk_data s) as [o|]; [|repeat split].
  destruct (String.eqb a ""); repeat split.
Qed.

Lemma extract_miss_recomputes ops s k :
  recomputations (fst (extract_miss ops s k)) = S (recomputations s)
  /\ params (fst (extract_miss ops s k)) = params s.
Proof.
  assert (Hs : recomputations (apply_slicing ops (bump_recomputations s)) = S (recomputations s)).
  { unfold apply_slicing. destruct (original_data (bump_recomputations s)) as [o|];
      [|reflexivity].
    destruct (negb _); [reflexivity|]. destruct (multiple_slices _).
    - destruct (multi_slices_of _ _ _) as [inputs added]. destruct (0 <? added)%nat; reflexivity.
    - destruct (0 <? length _)%nat; reflexivity. }
  destruct (apply_slicing_keeps ops (bump_recomputations s)) as [_ [_ [_ [Hp _]]]].
  unfold extract_miss.
  destruct (vtk_data (apply_slicing ops (bump_recomputations s))) as [o1|];
    [|split; [exact Hs | exact Hp]].
  destruct (to_polydata _ _ _) as [pd|]; [|split; [exact Hs | exact Hp]].
  destruct (negb (pd_points_obj pd)); [split; [exact Hs | exact Hp]|].
  destruct (pack _ _ _ _); split; first [exact Hs | exact Hp].
Qed.

(** A call triggered by a dataset button whose dataset loads ends with
    slicing on, along [x], at position 0, whatever the slicing widgets sent
    and whether or not the extraction is served from the cache. *)
Theorem update_button_load_slicing_on ops file_exists t ty u s :
  button_dataset t = Some ty ->
  snd (load_large_dataset ops file_exists ty s) = true ->
  let p' := params (fst (update_vtk_geometry ops file_exists (Some t) u s)) in
  slicing_enabled p' = true /\ slice_normal p' = (1, 0, 0)%Q /\ slice_position p' = 0%Q.
Proof.
  intros Hb Hok p'. subst p'. unfold update_vtk_geometry. rewrite Hb.
  set (s1 := set_params s (update_params (Some t) u (params s))).
  set (s2 := match in_array u with
             | Some a => if nonempty a && negb (ostring_eqb (Some a) (current_array s1))
                         then apply_array_coloring ops (Some a) s1 else s1
             | None => s1
             end).
  rewrite (load_large_dataset_ok_indep ops file_exists ty s s2) in Hok.
  destruct (load_large_dataset_shape ops file_exists ty s2 Hok)
    as [Hen [Hn [Hpos [_ [_ [v [Hv _]]]]]]].
  set (s3 := fst (load_large_dataset ops file_exists ty s2)) in *.
  assert (Hm : forall k, params (fst (extract_miss ops s3 k)) = params s3).
  { intro k. apply (proj2 (extract_miss_recomputes ops s3 k)). }
  unfold extract_geometry_data. rewrite Hv.
  destruct (cache s3) as [[k' g]|];
    [destruct (key_eqb ops k' (key_of s3 v))|]; try rewrite Hm; cbn [fst];
    repeat split; assumption.
Qed.

Lemma update_button_load_slicing_on_witness :
  slicing_enabled (params (fst (update_vtk_geometry image_ops (fun _ => true)
    (Some "create-volume-btn"%string)
    (mkUiInputs None None None (Some false) None None None None None)
    (demo_session unsliced_params)))) = true.
Proof.
  refine (proj1 (update_button_load_slicing_on image_ops (fun _ => true)
                   "create-volume-btn" "volume"
                   (mkUiInputs None None None (Some false) None None None None None)
                   (demo_session unsliced_params) _ _)).
  - reflexivity.
  - vm_compute. reflexivity.
Defined.

(** ** Hash collisions of the fingerprint *)

(** CPython hashes [-1] as [-2], so the slider positions [-1] and [-2]
    hash alike. *)
Lemma py_hash_minus_one : py_hash_Q (-1) = -2 /\ py_hash_Q (-2) = -2.
Proof. split; vm_compute; reflexivity. Qed.

(** The parameters with another slice position. *)
Definition with_position (p : Params) (pos : Q) : Params :=
  mkParams (current_opacity p) (wireframe_mode p) (slicing_enabled p) pos (slice_normal p)
    (multiple_slices p) (num_slices p) (slice_spacing p).

(** A request whose geometry is cached for slice position [-1], repeated
    with position [-2] and nothing else changed, has the same fingerprint:
    it is answered with the geometry cached for [-1], the session unchanged
    and no new cut. *)
Theorem slice_position_hash_collision ops s o g :
  vtk_data s = Some o ->
  cache s = Some (key_of s o, g) ->
  slice_position (params s) = (-1)%Q ->
  let s' := set_params s (with_position (params s) (-2)) in
  extract_geometry_data ops s' = (s', Returned (Some g)).
Proof.
  intros Hv Hc Hpos s'. unfold extract_geometry_data.
  change (vtk_data s') with (vtk_data s). change (cache s') with (cache s).
  rewrite Hv, Hc.
  replace (key_eqb ops (key_of s o) (key_of s' o)) with true; [reflexivity|].
  symmetry. unfold key_eqb, key_hash, key_of, s', set_params, with_position.
  cbn [params current_array k_id k_opacity k_wireframe k_array k_enabled k_position
       k_normal k_multi k_num current_opacity wireframe_mode slicing_enabled
       slice_position slice_normal multiple_slices num_slices].
  rewrite Hpos. destruct py_hash_minus_one as [H1 H2]. rewrite H1, H2.
  apply Z.eqb_refl.
Qed.

(** Single slice at position [-1] through [demo_mesh]: the state after two
    requests, when the cache holds the key of the cutter's output. *)
Definition collide_params : Params := mkParams 1 false true (-1) (1, 0, 0)%Q false 3 1.

Definition collide_session : Session :=
  fst (extract_geometry_data demo_ops
         (fst (extract_geometry_data demo_ops (demo_session collide_params)))).

(** The geometry packed from [tri_pd]. *)
Definition tri_geometry : Geometry :=
  mkGeometry [0; 0; 0; 1; 0; 0; 0; 1; 0]%Q [0; 1; 2]%nat [0; 1; 0; 0; 1; 0; 0; 1; 0]%Q
    3 1 1 false.

Lemma slice_position_hash_collision_witness :
  extract_geometry_data demo_ops
    (set_params collide_session (with_position (params collide_session) (-2)))
  = (set_params collide_session (with_position (params collide_session) (-2)),
     Returned (Some tri_geometry)).
Proof.
  apply (slice_position_hash_collision demo_ops collide_session (mkObj 1 (DPoly tri_pd))
           tri_geometry); vm_compute; reflexivity.
Defined.
